(** * js-json-schema: compiled checks of the object and number builders

    A shallow embedding of [src/assertions/types/optimize.js],
    [src/assertions/builders/AssertNumber.js] and
    [src/assertions/builders/AssertObject.js].

    JavaScript values are a tree datatype; numbers are IEEE-754 binary64
    values ([spec_float] with 53 bits of precision); a function call either
    completes normally, throws, or leaves the fragment of JavaScript that is
    modelled here ([Unmodelled]: coercions of objects and strings to numbers,
    regular expressions with metacharacters, identity of objects).  Compiled
    checks are closures: they are embedded as Rocq functions in a state
    monad whose state holds the mutable variables the closures share and the
    promise rejections nobody handles. *)

From Stdlib Require Import ZArith List String Ascii Bool Lia.
From Corelib Require Import SpecFloat.
Import ListNotations.

#[local] Set Warnings "-register-all".

Local Open Scope string_scope.
Local Open Scope list_scope.
Local Open Scope Z_scope.

(* ------------------------------------------------------------------ *)
(** ** Numbers: binary64 *)

Module Num.

Definition prec : Z := 53.
Definition emax : Z := 1024.

Definition zero : spec_float := S754_zero false.

(** The double nearest to an integer (exact below 2^53). *)
Definition of_Z (z : Z) : spec_float := binary_normalize prec emax z 0 false.
Definition of_nat (n : nat) : spec_float := of_Z (Z.of_nat n).

Definition div (x y : spec_float) : spec_float := SFdiv prec emax x y.

(** The value of a decimal literal [n/d] with few digits, such as [1.3] =
    [decimal 13 10]: division is correctly rounded, so this is the double
    nearest to the fraction. *)
Definition decimal (n d : Z) : spec_float := div (of_Z n) (of_Z d).

Definition ltb (x y : spec_float) : bool := SFltb x y.
Definition leb (x y : spec_float) : bool := SFleb x y.
Definition eqb (x y : spec_float) : bool := SFeqb x y.

(** The normalised double of a positive integer below 2^53: its bits
    shifted up to a mantissa of 53 bits. *)
Definition normal (p : positive) : spec_float :=
  let d := Zpos (digits2_pos p) in
  match 53 - d with
  | Zpos k => S754_finite false (Pos.iter xO p k) (d - 53)
  | _ => S754_finite false p 0
  end.

(** [Number.isInteger]: finite, and no fractional bit set. *)
Definition isInteger (x : spec_float) : bool :=
  match x with
  | S754_zero _ => true
  | S754_finite _ m e =>
      if 0 <=? e then true else (Zpos m) mod (2 ^ (- e)) =? 0
  | _ => false
  end.

(** [x % 1]: the remainder of the truncating division by one, which is
    computed exactly; it keeps the sign of [x]. *)
Definition rem1 (x : spec_float) : spec_float :=
  match x with
  | S754_zero s => S754_zero s
  | S754_finite s m e =>
      if 0 <=? e then S754_zero s
      else binary_normalize prec emax
             (cond_Zopp s ((Zpos m) mod (2 ^ (- e)))) e s
  | _ => S754_nan
  end.

(** ToBoolean on a number: false for zeros and NaN. *)
Definition truthy (x : spec_float) : bool :=
  match x with
  | S754_zero _ | S754_nan => false
  | _ => true
  end.

End Num.

(* ------------------------------------------------------------------ *)
(** ** Values, completions and the store *)

Inductive ErrorCtor : Type := Error | TypeError.

(** An error object carries its constructor and its message.  A message
    built by a template literal that ends in a substituted value, such as
    [`#maximum: ... ${ref.maximum}`], is kept as the literal text together
    with the value substituted at its end. *)
Inductive JsVal : Type :=
| VUndefined
| VNull
| VBool (b : bool)
| VNum (x : spec_float)
| VStr (s : string)
| VArr (items : list JsVal)
| VObj (props : list (string * JsVal))
| VNative (name : string)
| VError (ctor : ErrorCtor) (message : string) (subst : option JsVal)
| VPromise (rejected : bool) (payload : JsVal).

Inductive Completion (A : Type) : Type :=
| Normal (a : A)
| Throw (e : JsVal)
| Unmodelled.

Arguments Normal {A} a.
Arguments Throw {A} e.
Arguments Unmodelled {A}.

Definition bindC {A B : Type} (c : Completion A) (k : A -> Completion B)
  : Completion B :=
  match c with
  | Normal a => k a
  | Throw e => Throw e
  | Unmodelled => Unmodelled
  end.

Notation "'let!' x ':=' c 'in' k" := (bindC c (fun x => k))
  (at level 10, x pattern, c at level 100, k at level 200).

(** The store: the [patternMatch] variables allocated by
    [AssertObject[ASSERT_PROPERTIES]] (one per call, shared by the closures
    that call created), and the reasons of the rejected promises that were
    dropped without a handler, oldest first. *)
Record Env : Type := mkEnv {
  cells : list bool;
  unhandled : list JsVal
}.

Definition M (A : Type) : Type := Env -> Completion A * Env.

Definition ret {A : Type} (a : A) : M A := fun s => (Normal a, s).
Definition throw {A : Type} (e : JsVal) : M A := fun s => (Throw e, s).
Definition lift {A : Type} (c : Completion A) : M A := fun s => (c, s).

Definition bind {A B : Type} (m : M A) (k : A -> M B) : M B :=
  fun s =>
    match m s with
    | (Normal a, s') => k a s'
    | (Throw e, s') => (Throw e, s')
    | (Unmodelled, s') => (Unmodelled, s')
    end.

Notation "x <- c ;; k" := (bind c (fun x => k))
  (at level 200, c at level 100, k at level 200, right associativity).
Notation "' pat <- c ;; k" :=
  (bind c (fun x => match x with pat => k end))
  (at level 10, pat pattern, c at level 100, k at level 200).
Notation "c ;;; k" := (bind c (fun _ => k))
  (at level 200, k at level 200, right associativity).

Definition read_cell (loc : nat) : M bool :=
  fun s => (Normal (nth loc (cells s) false), s).

Fixpoint update (loc : nat) (b : bool) (l : list bool) : list bool :=
  match l, loc with
  | [], _ => []
  | _ :: l', O => b :: l'
  | x :: l', S n => x :: update n b l'
  end.

Definition write_cell (loc : nat) (b : bool) : M unit :=
  fun s => (Normal tt, mkEnv (update loc b (cells s)) (unhandled s)).

(** [let patternMatch = false]: a fresh variable. *)
Definition alloc_cell : M nat :=
  fun s => (Normal (List.length (cells s)),
            mkEnv (cells s ++ [false]) (unhandled s)).

(** A compiled check: [(value, ref) => ...]. *)
Definition CompiledCheck : Type := JsVal -> JsVal -> M JsVal.

(* ------------------------------------------------------------------ *)
(** ** The language's own operations *)

Module Js.

Definition mkError (message : string) : JsVal := VError Error message None.
Definition mkTypeError (message : string) : JsVal :=
  VError TypeError message None.

(** Reading a property of [undefined] or [null] throws; the wording of the
    message is the engine's. *)
Definition not_an_object : JsVal :=
  mkTypeError "Cannot read properties of undefined or null".
Definition not_iterable : JsVal := mkTypeError "value is not iterable".

Definition ToBoolean (v : JsVal) : bool :=
  match v with
  | VUndefined | VNull => false
  | VBool b => b
  | VNum x => Num.truthy x
  | VStr s => negb (String.eqb s "")
  | _ => true
  end.

(** The names every plain object inherits from [Object.prototype]. *)
Definition ObjectPrototype : list string :=
  [ "constructor"; "toString"; "toLocaleString"; "valueOf";
    "hasOwnProperty"; "isPrototypeOf"; "propertyIsEnumerable";
    "__defineGetter__"; "__defineSetter__";
    "__lookupGetter__"; "__lookupSetter__" ].

Definition mem (k : string) (l : list string) : bool :=
  existsb (String.eqb k) l.

Fixpoint own (k : string) (props : list (string * JsVal)) : option JsVal :=
  match props with
  | [] => None
  | (k', v) :: rest => if String.eqb k k' then Some v else own k rest
  end.

(** [v[k]] for a string key: an own property first, then the prototype.
    The properties of a plain object are listed in the order [Object.keys]
    enumerates them.  Of arrays only [length] is modelled, and nothing of
    strings, numbers, functions, errors and promises. *)
Definition Get (v : JsVal) (k : string) : Completion JsVal :=
  match v with
  | VUndefined | VNull => Throw not_an_object
  | VObj props =>
      match own k props with
      | Some x => Normal x
      | None =>
          if String.eqb k "__proto__" then Unmodelled
          else if mem k ObjectPrototype then Normal (VNative k)
          else Normal VUndefined
      end
  | VArr items =>
      if String.eqb k "length"
      then Normal (VNum (Num.of_nat (List.length items)))
      else Unmodelled
  | VBool _ =>
      if String.eqb k "__proto__" || mem k ObjectPrototype then Unmodelled
      else Normal VUndefined
  | _ => Unmodelled
  end.

(** A value used as a property key. *)
Definition ToPropertyKey (v : JsVal) : Completion string :=
  match v with
  | VStr s => Normal s
  | VUndefined => Normal "undefined"
  | VNull => Normal "null"
  | VBool true => Normal "true"
  | VBool false => Normal "false"
  | _ => Unmodelled
  end.

Definition GetV (v key : JsVal) : Completion JsVal :=
  let! k := ToPropertyKey key in Get v k.

(** [Object.keys] of a plain object. *)
Definition keys (props : list (string * JsVal)) : list string :=
  map fst props.

(** [Object.keys(v)]; the index keys of non-empty arrays and strings are
    not modelled. *)
Definition Object_keys (v : JsVal) : Completion (list string) :=
  match v with
  | VObj props => Normal (keys props)
  | VUndefined | VNull => Throw not_an_object
  | VBool _ | VNum _ | VArr [] | VStr EmptyString => Normal []
  | _ => Unmodelled
  end.

(** The parameter pattern [[value, key, val]]. *)
Definition destructure3 (arg : JsVal) : Completion (JsVal * JsVal * JsVal) :=
  match arg with
  | VArr items =>
      Normal (nth 0 items VUndefined, nth 1 items VUndefined,
              nth 2 items VUndefined)
  | VUndefined | VNull | VBool _ | VNum _ | VObj _ => Throw not_iterable
  | _ => Unmodelled
  end.

(** ToNumber on the primitives that need no parsing. *)
Definition ToNumber (v : JsVal) : Completion spec_float :=
  match v with
  | VNum x => Normal x
  | VUndefined => Normal S754_nan
  | VNull => Normal Num.zero
  | VBool true => Normal (Num.of_Z 1)
  | VBool false => Normal Num.zero
  | _ => Unmodelled
  end.

(** [a < b], [a <= b], [a > b], [a >= b] where no operand is a string or
    an object. *)
Definition lt (a b : JsVal) : Completion bool :=
  let! x := ToNumber a in let! y := ToNumber b in Normal (Num.ltb x y).
Definition le (a b : JsVal) : Completion bool :=
  let! x := ToNumber a in let! y := ToNumber b in Normal (Num.leb x y).
Definition gt (a b : JsVal) : Completion bool :=
  let! x := ToNumber a in let! y := ToNumber b in Normal (Num.ltb y x).
Definition ge (a b : JsVal) : Completion bool :=
  let! x := ToNumber a in let! y := ToNumber b in Normal (Num.leb y x).

(** [a === b].  Two values of different types are different; whether two
    objects are one and the same is not modelled. *)
Definition strict_equal (a b : JsVal) : Completion bool :=
  match a, b with
  | VUndefined, VUndefined | VNull, VNull => Normal true
  | VBool x, VBool y => Normal (Bool.eqb x y)
  | VNum x, VNum y => Normal (Num.eqb x y)
  | VStr x, VStr y => Normal (String.eqb x y)
  | VArr _, VArr _ | VObj _, VObj _ | VNative _, VNative _
  | VError _ _ _, VError _ _ _ | VPromise _ _, VPromise _ _ => Unmodelled
  | _, _ => Normal false
  end.

(** [v === "..."] and [v === false] never need identity. *)
Definition is_string (v : JsVal) (s : string) : bool :=
  match v with VStr x => String.eqb x s | _ => false end.
Definition is_false (v : JsVal) : bool :=
  match v with VBool false => true | _ => false end.

(** An [async] function returns a promise: fulfilled with what the body
    returns (a promise returned by the body is adopted), rejected with what
    it throws.  Promises are settled eagerly: in these sources every
    [await] is applied to what [assertOptimized] returns, which is no
    promise, so an [await] only postpones the rest of a body, and what is
    postponed reads no variable that another body writes ([patternMatch]
    is written and read before the first [await] of the bodies that share
    it). *)
Definition async (body : M JsVal) : M JsVal :=
  fun s =>
    match body s with
    | (Normal (VPromise r p), s') => (Normal (VPromise r p), s')
    | (Normal v, s') => (Normal (VPromise false v), s')
    | (Throw e, s') => (Normal (VPromise true e), s')
    | (Unmodelled, s') => (Unmodelled, s')
    end.

Definition await (v : JsVal) : M JsVal :=
  match v with
  | VPromise false p => ret p
  | VPromise true e => throw e
  | _ => ret v
  end.

(** An expression statement drops its value.  A rejected promise dropped
    this way never gets a handler: the host reports its reason as an
    unhandled rejection.  The reasons are recorded in the order in which
    the promises were dropped. *)
Definition discard (v : JsVal) : M unit :=
  fun s =>
    match v with
    | VPromise true e => (Normal tt, mkEnv (cells s) (unhandled s ++ [e]))
    | _ => (Normal tt, s)
    end.

(** Regular expressions: a pattern made of letters, digits and underscores
    only matches where it occurs literally; [ignore_case] is the [i] flag. *)
Definition word_char (c : ascii) : bool :=
  let n := nat_of_ascii c in
  ((48 <=? n) && (n <=? 57) || (65 <=? n) && (n <=? 90)
   || (97 <=? n) && (n <=? 122) || (n =? 95))%nat.

Fixpoint literal (p : string) : bool :=
  match p with
  | EmptyString => true
  | String c p' => word_char c && literal p'
  end.

Definition lower (c : ascii) : ascii :=
  let n := nat_of_ascii c in
  if ((65 <=? n) && (n <=? 90))%nat then ascii_of_nat (n + 32) else c.

Fixpoint starts_with (ignore_case : bool) (p s : string) : bool :=
  match p, s with
  | EmptyString, _ => true
  | String _ _, EmptyString => false
  | String a p', String b s' =>
      (if ignore_case then Ascii.eqb (lower a) (lower b) else Ascii.eqb a b)
      && starts_with ignore_case p' s'
  end.

Fixpoint occurs (ignore_case : bool) (p s : string) : bool :=
  starts_with ignore_case p s
  || match s with
     | EmptyString => false
     | String _ s' => occurs ignore_case p s'
     end.

(** [new RegExp(pattern).test(s)], and [s.search(new RegExp(pattern, 'i'))
    !== -1] with [ignore_case]. *)
Definition RegExp_test (ignore_case : bool) (pattern s : string)
  : Completion bool :=
  if literal pattern then Normal (occurs ignore_case pattern s)
  else Unmodelled.

End Js.

(* ------------------------------------------------------------------ *)
(** ** types/primitive.js and types/optimize.js *)

Module Types.

(** Modelled from the spec: the type guards of [types/primitive.js], which
    is not among the sources ("primitive type-guard predicates
    (object/array/string/number/integer/boolean/enum/schema-shape checks)
    -- pure, dependency-free functions").  [isUndefined], [isBoolean],
    [isString], [isNumber] test the type of the value, [isArray] is
    [Array.isArray], [isObject] holds of plain objects, [isInteger] is
    [Number.isInteger]. *)
Definition isUndefined (v : JsVal) : bool :=
  match v with VUndefined => true | _ => false end.
Definition isBoolean (v : JsVal) : bool :=
  match v with VBool _ => true | _ => false end.
Definition isString (v : JsVal) : bool :=
  match v with VStr _ => true | _ => false end.
Definition isNumber (v : JsVal) : bool :=
  match v with VNum _ => true | _ => false end.
Definition isInteger (v : JsVal) : bool :=
  match v with VNum x => Num.isInteger x | _ => false end.
Definition isArray (v : JsVal) : bool :=
  match v with VArr _ => true | _ => false end.
Definition isObject (v : JsVal) : bool :=
  match v with VObj _ => true | _ => false end.

(** Modelled from the spec: [isSchema], the schema-shape check.  "A Schema
    Node [is] a mapping from keyword name to keyword value ... A node may
    itself be the literal value false"; [additionalProperties] "must be a
    sub-schema or a boolean". *)
Definition isSchema (v : JsVal) : bool := isObject v || isBoolean v.

(** Modelled from the spec: [isTypedArray(list, isString)], "an array of
    strings", and [isEnum(value, isString)], "a non-empty array of
    strings". *)
Definition isTypedArray_isString (v : JsVal) : bool :=
  match v with VArr items => forallb isString items | _ => false end.
Definition isEnum_isString (v : JsVal) : bool :=
  match v with
  | VArr [] => false
  | VArr items => forallb isString items
  | _ => false
  end.

(** The numeric type test a number check captures at compile time:
    [type === 'integer' ? isInteger : isNumber]. *)
Inductive Assertion : Type := the_isInteger | the_isNumber.

Definition apply (assertion : Assertion) (v : JsVal) : bool :=
  match assertion with
  | the_isInteger => isInteger v
  | the_isNumber => isNumber v
  end.

Definition name (assertion : Assertion) : string :=
  match assertion with
  | the_isInteger => "isInteger"
  | the_isNumber => "isNumber"
  end.

(** [for (let fn of optimized) fn(value, schema)]: the value a check
    returns is dropped. *)
Fixpoint for_of (optimized : list CompiledCheck) (value schema : JsVal)
  : M unit :=
  match optimized with
  | [] => ret tt
  | fn :: rest =>
      r <- fn value schema ;;
      Js.discard r ;;;
      for_of rest value schema
  end.

(** [assertOptimized (value, schema, optimized = [])]; [None] is an
    [optimized] that is [undefined]. *)
Definition assertOptimized (value schema : JsVal)
  (optimized : option (list CompiledCheck)) : M JsVal :=
  if Js.is_false schema
  then throw (Js.mkError "'false' Schema invalidates all values")
  else
    for_of (match optimized with Some l => l | None => [] end) value schema ;;;
    ret VUndefined.

Definition size_error (key : string) : JsVal :=
  Js.mkTypeError ("#" ++ key ++ ": keyword must be a positive integer")%string.

(** [!(isInteger(size) && size > 0)] *)
Definition bad_size (size : JsVal) : Completion bool :=
  if isInteger size
  then let! pos := Js.gt size (VNum Num.zero) in Normal (negb pos)
  else Normal true.

(** The closure [assertSizeMax] returns. *)
Definition sizeMax_check (key : string) : CompiledCheck :=
  fun results ref => lift (
    let! len := Js.Get results "length" in
    let! threshold := Js.Get ref key in
    let! over := Js.gt len threshold in
    if over
    then Throw (Js.mkError ("#" ++ key ++ ": value maximum exceeded")%string)
    else Normal VUndefined).

Definition assertSizeMax (size : JsVal) (key : string)
  : Completion CompiledCheck :=
  let! bad := bad_size size in
  if bad then Throw (size_error key) else Normal (sizeMax_check key).

(** The closure [assertSizeMin] returns. *)
Definition sizeMin_check (key : string) : CompiledCheck :=
  fun results ref => lift (
    let! len := Js.Get results "length" in
    let! threshold := Js.Get ref key in
    let! under := Js.lt len threshold in
    if under
    then Throw (Js.mkError ("#" ++ key ++ ": value minimum not met")%string)
    else Normal VUndefined).

Definition assertSizeMin (size : JsVal) (key : string)
  : Completion CompiledCheck :=
  let! bad := bad_size size in
  if bad then Throw (size_error key) else Normal (sizeMin_check key).

End Types.

(* ------------------------------------------------------------------ *)
(** ** builders/AssertNumber.js *)

Module AssertNumber.
Import Types.

(** [static [ASSERT_MAX] (maximum, exclusive = false, assertion)] *)
Definition ASSERT_MAX (maximum exclusive : JsVal) (assertion : Assertion)
  : Completion unit :=
  let exclusive := if isUndefined exclusive then VBool false else exclusive in
  let exclusive := if isNumber exclusive then VBool false else exclusive in
  if negb (apply assertion maximum)
  then Throw (Js.mkTypeError "#maximum: keyword is not the right type")
  else if negb (isBoolean exclusive)
  then Throw (Js.mkTypeError "#exclusiveMaximum: keyword is not a boolean")
  else Normal tt.

Definition ASSERT_MIN (minimum exclusive : JsVal) (assertion : Assertion)
  : Completion unit :=
  let exclusive := if isUndefined exclusive then VBool false else exclusive in
  let exclusive := if isNumber exclusive then VBool false else exclusive in
  if negb (apply assertion minimum)
  then Throw (Js.mkTypeError "#minimum: keyword is not the right type")
  else if negb (isBoolean exclusive)
  then Throw (Js.mkTypeError "#exclusiveMinimum: keyword is not a boolean")
  else Normal tt.

Definition ASSERT_MULTIPLE (multipleOf : JsVal) (assertion : Assertion)
  : Completion unit :=
  if negb (apply assertion multipleOf)
  then Throw (Js.mkTypeError "#multipleOf: keyword is not the right type")
  else Normal tt.

(** [/^(?:integer|number)$/.test(t)] *)
Definition names_numeric_type (t : JsVal) : Completion bool :=
  match t with
  | VStr s => Normal (String.eqb s "integer" || String.eqb s "number")
  | VUndefined | VNull | VBool _ | VNum _ => Normal false
  | _ => Unmodelled
  end.

(** [(x / m) % 1 !== 0] *)
Definition not_multiple (x m : spec_float) : bool :=
  negb (Num.eqb (Num.rem1 (Num.div x m)) Num.zero).

(** The check compiled when a bound keyword is a number.  It reports a
    violation by _returning_ an error object. *)
Definition number_check (assertion : Assertion) : CompiledCheck :=
  fun value ref => lift (
    if negb (apply assertion value) then
      let! type := Js.Get ref "type" in
      let! numeric := names_numeric_type type in
      if numeric
      then Normal (VError Error "#type: value is not a(n) " (Some type))
      else Normal VUndefined
    else
    let! maximum := Js.Get ref "maximum" in
    let! above :=
      if isNumber maximum then
        let! exclusive := Js.Get ref "exclusiveMaximum" in
        let! reached :=
          if Js.ToBoolean exclusive then Js.ge value maximum
          else Normal false in
        if reached then Normal true else Js.gt value maximum
      else Normal false in
    if above
    then Normal (VError Error
           "#maximum: value is greater than or equal to " (Some maximum))
    else
    let! exclusiveMaximum := Js.Get ref "exclusiveMaximum" in
    let! above :=
      if isNumber exclusiveMaximum then Js.ge value exclusiveMaximum
      else Normal false in
    if above
    then Normal (VError Error
           "#exclusiveMaximum: value is greater than or equal to "
           (Some exclusiveMaximum))
    else
    let! minimum := Js.Get ref "minimum" in
    let! below :=
      if isNumber minimum then
        let! exclusive := Js.Get ref "exclusiveMinimum" in
        let! reached :=
          if Js.ToBoolean exclusive then Js.le value minimum
          else Normal false in
        if reached then Normal true else Js.lt value minimum
      else Normal false in
    if below
    then Normal (VError Error
           "#minimum: value is less than or equal to " (Some minimum))
    else
    let! exclusiveMinimum := Js.Get ref "exclusiveMinimum" in
    let! below :=
      if isNumber exclusiveMinimum then Js.le value exclusiveMinimum
      else Normal false in
    if below
    then Normal (VError Error
           "#exclusiveMinimum: value is less than or equal to "
           (Some exclusiveMinimum))
    else
    let! multipleOf := Js.Get ref "multipleOf" in
    match value, multipleOf with
    | VNum x, VNum m =>
        if not_multiple x m
        then Normal (VError Error
               "#multipleOf: value is not a multiple of " (Some multipleOf))
        else Normal VUndefined
    | _, _ => Normal VUndefined
    end).

(** The check compiled when only [type] asks for a number. *)
Definition type_check (assertion : Assertion) : CompiledCheck :=
  fun value ref => lift (
    if negb (apply assertion value) then
      let! type := Js.Get ref "type" in
      Normal (VError Error "#type: value is not a(n) " (Some type))
    else Normal VUndefined).

(** [type === 'integer' ? isInteger : isNumber] *)
Definition assertion_of (type : JsVal) : Assertion :=
  if Js.is_string type "integer" then the_isInteger else the_isNumber.

(** [static optimize (schema)] *)
Definition optimize (schema : JsVal) : Completion (list CompiledCheck) :=
  let! type := Js.Get schema "type" in
  let! exclusiveMaximum := Js.Get schema "exclusiveMaximum" in
  let! exclusiveMinimum := Js.Get schema "exclusiveMinimum" in
  let! maximum := Js.Get schema "maximum" in
  let! minimum := Js.Get schema "minimum" in
  let! multipleOf := Js.Get schema "multipleOf" in
  let assertion := assertion_of type in
  let! _ :=
    if negb (isUndefined maximum)
    then ASSERT_MAX maximum exclusiveMaximum assertion else Normal tt in
  let! _ :=
    if negb (isUndefined minimum)
    then ASSERT_MIN minimum exclusiveMinimum assertion else Normal tt in
  let! _ :=
    if negb (isUndefined multipleOf)
    then ASSERT_MULTIPLE multipleOf assertion else Normal tt in
  if isNumber maximum || isNumber exclusiveMaximum || isNumber minimum
     || isNumber exclusiveMinimum || isNumber multipleOf
  then Normal [number_check assertion]
  else if Js.ToBoolean type then
    match type with
    | VStr pattern =>
        let! found := Js.RegExp_test true pattern (name assertion) in
        if found then Normal [type_check assertion] else Normal []
    | _ => Unmodelled
    end
  else Normal [].

End AssertNumber.

(* ------------------------------------------------------------------ *)
(** ** builders/AssertObject.js *)

Module AssertObject.
Import Types.

Section Cache.

(** The compiled-check cache [node[OPTIMIZED]], a symbol-keyed slot the
    orchestrator (not among the sources) writes after compiling a node;
    [None] is a slot that was never written. *)
Variable OPTIMIZED : JsVal -> option (list CompiledCheck).

(** [v[OPTIMIZED]]: primitives hold no slot. *)
Definition GetOptimized (v : JsVal)
  : Completion (option (list CompiledCheck)) :=
  match v with
  | VUndefined | VNull => Throw Js.not_an_object
  | VBool _ | VNum _ | VStr _ => Normal None
  | _ => Normal (OPTIMIZED v)
  end.

(** [assertOptimized(x, sub, sub[OPTIMIZED])] *)
Definition validate (x sub : JsVal) : M JsVal :=
  opt <- lift (GetOptimized sub) ;;
  assertOptimized x sub opt.

(** *** ASSERT_DEPENDENCIES *)

Definition dependency_ok (value : JsVal) : bool :=
  (isArray value && match value with VArr [] => true | _ => false end)
  || isEnum_isString value || isSchema value.

Definition dependencies_error : JsVal :=
  Js.mkTypeError "#dependencies: all dependencies must either be Schemas|enums".

Fixpoint check_entries (dependencies : JsVal) (keys : list string)
  : Completion unit :=
  match keys with
  | [] => Normal tt
  | k :: rest =>
      let! value := Js.Get dependencies k in
      if negb (dependency_ok value) then Throw dependencies_error
      else check_entries dependencies rest
  end.

Definition missing_dependency (key : string) : JsVal :=
  Js.mkError
    ("#dependencies: value does not have '" ++ key ++ "' dependency")%string.

(** [for (let depKey of ref.dependencies[key])] *)
Fixpoint for_depKeys (value : JsVal) (key : string) (depKeys : list JsVal)
  : Completion JsVal :=
  match depKeys with
  | [] => Normal VUndefined
  | depKey :: rest =>
      let! v := Js.GetV value depKey in
      if isUndefined v then Throw (missing_dependency key)
      else for_depKeys value key rest
  end.

Definition dependencies_check : CompiledCheck :=
  fun arg ref => Js.async (
    '(value, key, val) <- lift (Js.destructure3 arg) ;;
    dependencies <- lift (Js.Get ref "dependencies") ;;
    k <- lift (Js.ToPropertyKey key) ;;
    entry <- lift (Js.Get dependencies k) ;;
    if isUndefined entry then ret VUndefined
    else
      match entry with
      | VArr depKeys => lift (for_depKeys value k depKeys)
      | _ => validate value entry
      end).

Definition ASSERT_DEPENDENCIES (dependencies : JsVal)
  : Completion CompiledCheck :=
  let! keys := Js.Object_keys dependencies in
  let! _ := check_entries dependencies keys in
  Normal dependencies_check.

(** *** ASSERT_KEYS *)

Definition keys_check : CompiledCheck :=
  fun arg ref => Js.async (
    '(value, key, val) <- lift (Js.destructure3 arg) ;;
    propertyNames <- lift (Js.Get ref "propertyNames") ;;
    validate key propertyNames).

Definition ASSERT_KEYS (propertyNames : JsVal) : Completion CompiledCheck :=
  if negb (isSchema propertyNames)
  then Throw (Js.mkTypeError "#propertyNames: must be a Schema")
  else Normal keys_check.

(** *** ASSERT_PROPERTIES *)

Definition properties_check : CompiledCheck :=
  fun arg ref => Js.async (
    '(value, key, val) <- lift (Js.destructure3 arg) ;;
    properties <- lift (Js.Get ref "properties") ;;
    k <- lift (Js.ToPropertyKey key) ;;
    sub <- lift (Js.Get properties k) ;;
    if isSchema sub
    then r <- validate val sub ;; Js.await r ;;; ret VUndefined
    else ret VUndefined).

(** [for (let i of keys)] of the pattern check; [loc] is [patternMatch]. *)
Fixpoint for_patterns (loc : nat) (keys : list string) (k : string)
  (val ref : JsVal) : M unit :=
  match keys with
  | [] => ret tt
  | i :: rest =>
      hit <- lift (Js.RegExp_test false i k) ;;
      (if (hit : bool) then
         write_cell loc true ;;;
         patternProperties <- lift (Js.Get ref "patternProperties") ;;
         sub <- lift (Js.Get patternProperties i) ;;
         r <- validate val sub ;;
         Js.await r ;;; ret tt
       else ret tt) ;;;
      for_patterns loc rest k val ref
  end.

Definition pattern_check (loc : nat) (keys : list string) : CompiledCheck :=
  fun arg ref => Js.async (
    '(value, key, val) <- lift (Js.destructure3 arg) ;;
    write_cell loc false ;;;
    k <- lift (Js.ToPropertyKey key) ;;
    for_patterns loc keys k val ref ;;;
    ret VUndefined).

(** [!(ref.properties && ref.properties[key]) && !patternMatch] *)
Definition is_additional (loc : nat) (key ref : JsVal) : M bool :=
  properties <- lift (Js.Get ref "properties") ;;
  named <-
    (if Js.ToBoolean properties
     then k <- lift (Js.ToPropertyKey key) ;;
          sub <- lift (Js.Get properties k) ;; ret (Js.ToBoolean sub)
     else ret false) ;;
  if (named : bool) then ret false
  else patternMatch <- read_cell loc ;; ret (negb patternMatch).

Definition additional_schema_check (loc : nat) : CompiledCheck :=
  fun arg ref => Js.async (
    '(value, key, val) <- lift (Js.destructure3 arg) ;;
    additional <- is_additional loc key ref ;;
    if (additional : bool) then
      additionalProperties <- lift (Js.Get ref "additionalProperties") ;;
      r <- validate val additionalProperties ;;
      Js.await r ;;; ret VUndefined
    else ret VUndefined).

Definition additional_error : JsVal :=
  Js.mkError "#additionalProperties: additional properties not allowed".

Definition additional_false_check (loc : nat) : CompiledCheck :=
  fun arg ref => Js.async (
    '(value, key, val) <- lift (Js.destructure3 arg) ;;
    additional <- is_additional loc key ref ;;
    if (additional : bool) then throw additional_error
    else ret VUndefined).

(** [patternProps[k] = new RegExp(k)] for every key: the patterns must
    compile. *)
Fixpoint compile_patterns (keys : list string) : Completion unit :=
  match keys with
  | [] => Normal tt
  | k :: rest =>
      let! _ := Js.RegExp_test false k "" in compile_patterns rest
  end.

Definition ASSERT_PROPERTIES (schema : JsVal) : M (list CompiledCheck) :=
  properties <- lift (Js.Get schema "properties") ;;
  patternProperties <- lift (Js.Get schema "patternProperties") ;;
  additionalProperties <- lift (Js.Get schema "additionalProperties") ;;
  loc <- alloc_cell ;;
  list1 <-
    (if isObject properties then ret [properties_check]
     else if negb (isUndefined properties)
     then throw (Js.mkTypeError "#properties: must be an Object")
     else ret []) ;;
  list2 <-
    (if isObject patternProperties then
       keys <- lift (Js.Object_keys patternProperties) ;;
       lift (compile_patterns keys) ;;;
       ret [pattern_check loc keys]
     else if negb (isUndefined patternProperties)
     then throw (Js.mkTypeError "#patternProperties: must be an Object")
     else ret []) ;;
  list3 <-
    (if isObject additionalProperties then ret [additional_schema_check loc]
     else if isBoolean additionalProperties
             && Js.is_false additionalProperties
     then ret [additional_false_check loc]
     else if negb (isUndefined additionalProperties)
     then throw (Js.mkTypeError
            "#additionalProperties: must be either a Schema or Boolean")
     else ret []) ;;
  ret (list1 ++ list2 ++ list3).

(** *** ASSERT_REQUIRED *)

(** [obj[val] = true] on the accumulator of [reduce], a plain object:
    assigning a boolean to [__proto__] changes nothing. *)
Definition set_true (obj : list (string * JsVal)%type) (val : JsVal)
  : Completion (list (string * JsVal)%type) :=
  let! k := Js.ToPropertyKey val in
  if String.eqb k "__proto__" then Normal obj
  else match Js.own k obj with
       | Some _ => Normal obj
       | None => Normal (obj ++ [(k, VBool true)])
       end.

Fixpoint reduce (items : list JsVal) (obj : list (string * JsVal)%type)
  : Completion (list (string * JsVal)%type) :=
  match items with
  | [] => Normal obj
  | val :: rest => let! obj' := set_true obj val in reduce rest obj'
  end.

Definition required_error : JsVal :=
  Js.mkError "#required: value does not have all required properties".

Definition assertReq : CompiledCheck :=
  fun results ref => Js.async (lift (
    let! reqCount := Js.Get results "reqCount" in
    let! required := Js.Get ref "required" in
    let! length := Js.Get required "length" in
    let! same := Js.strict_equal reqCount length in
    if negb same then Throw required_error else Normal VUndefined)).

(** The object [{ req, assertReq }]; [assertReq] is [None] where the
    returned object has no such property. *)
Definition ASSERT_REQUIRED (required : JsVal)
  : Completion (JsVal * option CompiledCheck)%type :=
  if isUndefined required then Normal (VObj [], None)
  else if negb (isArray required) || negb (isTypedArray_isString required)
  then Throw (Js.mkTypeError
         "#required: required properties must be defined in an array of strings")
  else match required with
       | VArr items =>
           let! req := reduce items [] in Normal (VObj req, Some assertReq)
       | _ => Unmodelled
       end.

(** *** optimize *)

Definition nonempty {A : Type} (l : list A) : bool :=
  match l with [] => false | _ => true end.

Definition not_an_object_error : JsVal :=
  Js.mkError "#type: value is not an object".

(** [for (let key of keys)] of the compiled check; [reqCount] counts the
    keys seen so far that [req] holds. *)
Fixpoint for_keys (innerList : list CompiledCheck) (req value ref : JsVal)
  (keys : list string) (reqCount : nat) : M nat :=
  match keys with
  | [] => ret reqCount
  | key :: rest =>
      val <- lift (Js.Get value key) ;;
      held <- lift (Js.Get req key) ;;
      let reqCount' := if Js.ToBoolean held then S reqCount else reqCount in
      (if nonempty innerList
       then r <- assertOptimized (VArr [value; VStr key; val]) ref
                   (Some innerList) ;;
            Js.await r ;;; ret tt
       else ret tt) ;;;
      for_keys innerList req value ref rest reqCount'
  end.

(** [let reqCount = 0] and the pass over the keys, guarded by
    [innerList.length || Object.keys(req).length]. *)
Definition tally (innerList : list CompiledCheck) (req value ref : JsVal)
  (keys : list string) : M nat :=
  guard <-
    (if nonempty innerList then ret true
     else reqKeys <- lift (Js.Object_keys req) ;; ret (nonempty reqKeys)) ;;
  if (guard : bool)
  then for_keys innerList req value ref keys 0
  else ret 0%nat.

(** A count as a number. *)
Definition count (n : nat) : JsVal := VNum (Num.of_nat n).

(** The object [{ length, reqCount }] handed to the whole-object checks. *)
Definition results (length reqCount : nat) : JsVal :=
  VObj [("length", count length); ("reqCount", count reqCount)].

(** The check compiled when some keyword asks for one. *)
Definition object_check (innerList outerList : list CompiledCheck) (req : JsVal)
  : CompiledCheck :=
  fun value ref => Js.async (
    if negb (isObject value) then
      type <- lift (Js.Get ref "type") ;;
      if Js.is_string type "object" then throw not_an_object_error
      else ret VUndefined
    else
      keys <- lift (Js.Object_keys value) ;;
      let length := List.length keys in
      reqCount <- tally innerList req value ref keys ;;
      if nonempty outerList then
        r <- assertOptimized (results length reqCount) ref
               (Some outerList) ;;
        Js.await r ;;; ret VUndefined
      else ret VUndefined).

(** The check compiled when only [type] asks for an object. *)
Definition type_check : CompiledCheck :=
  fun value ref => Js.async (
    if negb (isObject value) then throw not_an_object_error
    else ret VUndefined).

Definition optimize (schema : JsVal) : M (list CompiledCheck) :=
  type <- lift (Js.Get schema "type") ;;
  dependencies <- lift (Js.Get schema "dependencies") ;;
  maxProperties <- lift (Js.Get schema "maxProperties") ;;
  minProperties <- lift (Js.Get schema "minProperties") ;;
  propertyNames <- lift (Js.Get schema "propertyNames") ;;
  required <- lift (Js.Get schema "required") ;;
  inner1 <- ASSERT_PROPERTIES schema ;;
  inner2 <-
    (if negb (isUndefined dependencies)
     then c <- lift (ASSERT_DEPENDENCIES dependencies) ;; ret [c]
     else ret []) ;;
  inner3 <-
    (if negb (isUndefined propertyNames)
     then c <- lift (ASSERT_KEYS propertyNames) ;; ret [c]
     else ret []) ;;
  let innerList := inner1 ++ inner2 ++ inner3 in
  '(req, assertReq) <- lift (ASSERT_REQUIRED required) ;;
  let outer1 := match assertReq with Some c => [c] | None => [] end in
  outer2 <-
    (if negb (isUndefined maxProperties)
     then c <- lift (assertSizeMax maxProperties "maxProperties") ;; ret [c]
     else ret []) ;;
  outer3 <-
    (if negb (isUndefined minProperties)
     then c <- lift (assertSizeMin minProperties "minProperties") ;; ret [c]
     else ret []) ;;
  let outerList := outer1 ++ outer2 ++ outer3 in
  if nonempty innerList || nonempty outerList
  then ret [object_check innerList outerList req]
  else if Js.is_string type "object" then ret [type_check]
  else ret [].

End Cache.

End AssertObject.

(* ------------------------------------------------------------------ *)
(** ** What the specification calls things *)

Module Spec.
Import Types.

(** The integer a finite double stands for, where it stands for one:
    [m * 2^e] with the sign applied. *)
Definition denotes (x : spec_float) (z : Z) : Prop :=
  match x with
  | S754_zero _ => z = 0
  | S754_finite s m e =>
      if 0 <=? e then z = cond_Zopp s (Zpos m * 2 ^ e)
      else cond_Zopp s (Zpos m) = z * 2 ^ (- e)
  | _ => False
  end.

(** "a positive whole number" *)
Definition positive_whole (size : JsVal) : Prop :=
  exists x z, size = VNum x /\ denotes x z /\ 0 < z.

(** "an array of strings", empty or not *)
Definition array_of_strings (v : JsVal) : Prop :=
  exists items, v = VArr items /\ Forall (fun i => exists s, i = VStr s) items.

(** "a valid sub-schema": a mapping or a boolean *)
Definition sub_schema (v : JsVal) : Prop :=
  (exists props, v = VObj props) \/ (exists b, v = VBool b).

(** A name a plain object answers to without owning it. *)
Definition inherited (k : string) : bool :=
  String.eqb k "__proto__" || Js.mem k Js.ObjectPrototype.

(** The own keys of a value that are listed names. *)
Definition counted (names keys : list string) : list string :=
  filter (fun k => Js.mem k names) keys.


End Spec.

(* ------------------------------------------------------------------ *)
(** ** Schema nodes and values of the specification's examples *)

Module Examples.
Import Types.

Definition env0 : Env := mkEnv [] [].

(** No node has been compiled yet: every cache slot is [undefined]. *)
Definition nothing_compiled : JsVal -> option (list CompiledCheck) :=
  fun _ => None.

Definition num (z : Z) : JsVal := VNum (Num.of_Z z).

(** [{type: "number", minimum: 5}] *)
Definition minimum5 : JsVal :=
  VObj [("type", VStr "number"); ("minimum", num 5)].

(** [{type: "number", minimum: 5, exclusiveMinimum: true}] *)
Definition exclusive5 : JsVal :=
  VObj [("type", VStr "number"); ("minimum", num 5);
        ("exclusiveMinimum", VBool true)].

(** [{type: "number", multipleOf: 0.5}] *)
Definition half : JsVal := VNum (Num.decimal 1 2).
Definition multiple_of_half : JsVal :=
  VObj [("type", VStr "number"); ("multipleOf", half)].

(** [{type: "string"}] *)
Definition string_node : JsVal := VObj [("type", VStr "string")].

(** Modelled from the spec: the check list the string compiler, an
    external sibling that is not among the sources, caches on
    [{type: "string"}]; it "follow[s] the identical contract described for
    the object and number compilers", here the number compiler's type-only
    check with [isString] in place of the numeric test. *)
Definition string_type_check : CompiledCheck :=
  fun value ref => lift (
    if negb (isString value) then
      let! type := Js.Get ref "type" in
      Normal (VError Error "#type: value is not a(n) " (Some type))
    else Normal VUndefined).

Definition strings_compiled (node : JsVal) : option (list CompiledCheck) :=
  match node with
  | VObj [(k, VStr t)] =>
      if String.eqb k "type" && String.eqb t "string"
      then Some [string_type_check] else None
  | _ => None
  end.

(** [{type: "object", additionalProperties: false,
      properties: {a: {type: "string"}}}] *)
Definition closed_a : JsVal :=
  VObj [("type", VStr "object"); ("additionalProperties", VBool false);
        ("properties", VObj [("a", string_node)])].

(** [{a: "x", b: 2}] and [{a: "x"}] *)
Definition a_x_b_2 : JsVal := VObj [("a", VStr "x"); ("b", num 2)].
Definition a_x : JsVal := VObj [("a", VStr "x")].

Definition required_a : JsVal := VObj [("required", VArr [VStr "a"])].
Definition required_b : JsVal := VObj [("required", VArr [VStr "b"])].
Definition required_b_a : JsVal :=
  VObj [("required", VArr [VStr "b"; VStr "a"])].


(** [{a: 1}], [{b: 1}], [{a: 1, b: 2}] *)
Definition a_1 : JsVal := VObj [("a", num 1)].
Definition b_1 : JsVal := VObj [("b", num 1)].
Definition a_1_b_2 : JsVal := VObj [("a", num 1); ("b", num 2)].

(** The [dependencies] mapping [{a: []}] *)
Definition depends_on_nothing : JsVal := VObj [("a", VArr [])].

(** [{dependencies: {a: ["b"]}, required: ["b"]}] and [{a: 1, b: undefined}] *)
Definition a_needs_b : JsVal :=
  VObj [("dependencies", VObj [("a", VArr [VStr "b"])]);
        ("required", VArr [VStr "b"])].
Definition a_1_b_undefined : JsVal :=
  VObj [("a", num 1); ("b", VUndefined)].

End Examples.

(* ------------------------------------------------------------------ *)
(** ** Vocabulary for the case analyses *)

Module Cases.
Import Types.

(** What a plain object answers for a key other than [__proto__]: its own
    property, else what [Object.prototype] holds under that name. *)
Definition field (props : list (string * JsVal)) (k : string) : JsVal :=
  match Js.own k props with
  | Some v => v
  | None => if Js.mem k Js.ObjectPrototype then VNative k else VUndefined
  end.

(** The boolean-form exclusivity flag a node holds: absent counts as
    [false]. *)
Definition flag (o : option JsVal) : option bool :=
  match o with
  | None => Some false
  | Some (VBool b) => Some b
  | Some _ => None
  end.

(** [!isUndefined(value[k])] on a plain object. *)
Definition defined (props : list (string * JsVal)) (k : string) : bool :=
  negb (isUndefined (field props k)).

(** The error [assertOptimized] throws on the schema [false]. *)
Definition false_schema_error : JsVal :=
  Js.mkError "'false' Schema invalidates all values".

(** The promise an [async] check returns when a boolean sub-schema decides:
    [true] accepts, [false] refuses. *)
Definition decided (b : bool) : JsVal :=
  if b then VPromise false VUndefined else VPromise true false_schema_error.

(** [ref.properties && ref.properties[key]], as a boolean, where
    [properties] is a mapping or absent. *)
Definition named (rprops : list (string * JsVal)) (key : string) : bool :=
  match field rprops "properties" with
  | VObj pprops => Js.ToBoolean (field pprops key)
  | _ => false
  end.

(** Some pattern of the list occurs in the key. *)
Definition matched (patterns : list string) (key : string) : bool :=
  existsb (fun i => Js.occurs false i key) patterns.

(** A check leaves the [patternMatch] variable [loc] alone on the
    arguments [x] and [sub]: it runs to an end, it does not change the
    number of variables and it does not write that one. *)
Definition keeps_cell (loc : nat) (fn : CompiledCheck) (x sub : JsVal)
  : Prop :=
  forall s, exists c s',
    fn x sub s = (c, s')
    /\ c <> Unmodelled
    /\ List.length (cells s') = List.length (cells s)
    /\ nth loc (cells s') false = nth loc (cells s) false.

End Cases.

(* ------------------------------------------------------------------ *)
(** ** Counts as doubles *)

Section Counts.

Lemma digits2_lower (p : positive) : 2 ^ (Zpos (digits2_pos p) - 1) <= Zpos p.
Proof.
  induction p as [p IH | p IH |]; simpl digits2_pos.
  - rewrite Pos2Z.inj_succ.
    replace (Z.succ (Zpos (digits2_pos p)) - 1)
      with (Z.succ (Zpos (digits2_pos p) - 1)) by lia.
    rewrite Z.pow_succ_r by lia. lia.
  - rewrite Pos2Z.inj_succ.
    replace (Z.succ (Zpos (digits2_pos p)) - 1)
      with (Z.succ (Zpos (digits2_pos p) - 1)) by lia.
    rewrite Z.pow_succ_r by lia. lia.
  - simpl. lia.
Qed.

Lemma digits2_bound (p : positive) :
  Zpos p < 2 ^ 53 -> Zpos (digits2_pos p) <= 53.
Proof.
  intros Hp. pose proof (digits2_lower p) as Hl.
  destruct (Z_le_gt_dec (Zpos (digits2_pos p)) 53) as [|Hgt]; [assumption|].
  exfalso.
  assert (2 ^ 53 <= 2 ^ (Zpos (digits2_pos p) - 1))
    by (apply Z.pow_le_mono_r; lia).
  lia.
Qed.

Lemma digits2_iter (p k : positive) :
  digits2_pos (Pos.iter xO p k) = (digits2_pos p + k)%positive.
Proof.
  induction k as [| k IH] using Pos.peano_ind.
  - simpl. lia.
  - rewrite Pos.iter_succ. simpl. rewrite IH. lia.
Qed.


Lemma iter_xO_mul (k p : positive) :
  Zpos (Pos.iter xO p k) = Zpos p * 2 ^ Zpos k.
Proof.
  induction k as [| k IH] using Pos.peano_ind.
  - simpl. lia.
  - rewrite Pos.iter_succ, Pos2Z.inj_succ, Z.pow_succ_r by lia.
    rewrite Pos2Z.inj_xO, IH. lia.
Qed.

Lemma of_Z_normal (p : positive) :
  Zpos p < 2 ^ 53 -> Num.of_Z (Zpos p) = Num.normal p.
Proof.
  intros Hp. pose proof (digits2_bound p Hp) as Hd.
  unfold Num.of_Z, binary_normalize, binary_round, Num.normal.
  unfold shl_align, fexp, emin, Num.prec, Num.emax.
  rewrite Z.add_0_r.
  replace (Z.max (Zpos (digits2_pos p) - 53) (3 - 1024 - 53))
    with (Zpos (digits2_pos p) - 53) by lia.
  rewrite Z.sub_0_r.
  destruct (Z.eq_dec (Zpos (digits2_pos p)) 53) as [E|NE].
  - rewrite E. simpl (53 - 53).
    cbv beta iota. unfold binary_round_aux, shr_fexp, fexp, emin.
    simpl Zdigits2. rewrite E.
    change (IntDef.Z.max (53 + 0 - 53) (3 - 1024 - 53) - 0) with 0.
    cbn [shr shr_record_of_loc loc_of_shr_record shr_m round_nearest_even
         Zdigits2].
    rewrite E.
    change (IntDef.Z.max (53 + 0 - 53) (3 - 1024 - 53) - 0) with 0.
    reflexivity.
  - assert (exists k, 53 - Zpos (digits2_pos p) = Zpos k) as [k Hk].
    { destruct (53 - Zpos (digits2_pos p)) eqn:E; try lia. eauto. }
    rewrite Hk.
    assert (Hk' : Zpos (digits2_pos p) - 53 = Zneg k) by lia.
    rewrite Hk'.
    unfold binary_round_aux, shr_fexp, fexp, emin.
    simpl Zdigits2. rewrite digits2_iter.
    replace (Z.max (Zpos (digits2_pos p + k) + Zneg k - 53) (3 - 1024 - 53))
      with (Zneg k) by lia.
    rewrite Z.sub_diag.
    cbn [shr shr_record_of_loc loc_of_shr_record shr_m round_nearest_even
         Zdigits2].
    rewrite digits2_iter.
    replace (Z.max (Zpos (digits2_pos p + k) + Zneg k - 53) (3 - 1024 - 53))
      with (Zneg k) by lia.
    rewrite Z.sub_diag.
    cbn [shr shr_record_of_loc loc_of_shr_record shr_m].
    replace (Z.neg k <=? 1024 - 53) with true
      by (symmetry; apply Z.leb_le; lia).
    reflexivity.
Qed.

Lemma normal_finite (p : positive) :
  exists m e, Num.normal p = S754_finite false m e.
Proof. unfold Num.normal. destruct (53 - Zpos (digits2_pos p)); eauto. Qed.




Lemma of_succ_normal (n : nat) :
  Z.of_nat (S n) < 2 ^ 53 -> Num.of_nat (S n) = Num.normal (Pos.of_succ_nat n).
Proof.
  intros H. unfold Num.of_nat.
  change (Z.of_nat (S n)) with (Zpos (Pos.of_succ_nat n)) in *.
  apply of_Z_normal. exact H.
Qed.






End Counts.

(* ------------------------------------------------------------------ *)
(** ** The executor: [assertOptimized] *)

Section Executor.
Import Types.

Lemma for_of_app (pre post : list CompiledCheck) (value schema : JsVal)
  (s : Env) :
  for_of (pre ++ post) value schema s =
  match for_of pre value schema s with
  | (Normal _, s') => for_of post value schema s'
  | (Throw e, s') => (Throw e, s')
  | (Unmodelled, s') => (Unmodelled, s')
  end.
Proof.
  revert s. induction pre as [| c pre IH]; intros s; simpl.
  - reflexivity.
  - unfold bind. destruct (c value schema s) as [[r | e |] s1];
      try reflexivity.
    destruct (Js.discard r s1) as [[[] | e |] s2]; try reflexivity.
    apply IH.
Qed.

(** Checks run in list order, and the first one that throws stops the
    loop: the checks after it are not called. *)
Lemma assertOptimized_first_throw
  (pre post : list CompiledCheck) (c : CompiledCheck) (value schema e : JsVal)
  (s s1 s2 : Env) :
  Js.is_false schema = false ->
  for_of pre value schema s = (Normal tt, s1) ->
  c value schema s1 = (Throw e, s2) ->
  assertOptimized value schema (Some (pre ++ c :: post)) s = (Throw e, s2).
Proof.
  intros Hs Hpre Hc. unfold assertOptimized. rewrite Hs.
  unfold bind. rewrite for_of_app, Hpre. simpl.
  unfold bind. rewrite Hc. reflexivity.
Qed.

(** A check that completes normally never stops the loop, whatever it
    returns. *)
Lemma assertOptimized_all_return
  (optimized : list CompiledCheck) (value schema : JsVal) (s : Env) :
  Js.is_false schema = false ->
  (forall c s', In c optimized ->
     exists r s'', c value schema s' = (Normal r, s'')) ->
  exists s', assertOptimized value schema (Some optimized) s
             = (Normal VUndefined, s').
Proof.
  intros Hs Hall. unfold assertOptimized. rewrite Hs. unfold bind.
  assert (H : exists s', for_of optimized value schema s = (Normal tt, s')).
  { revert s. induction optimized as [| c l IH]; intros s.
    - exists s. reflexivity.
    - simpl. unfold bind.
      destruct (Hall c s (or_introl eq_refl)) as (r & s1 & ->).
      assert (Hd : exists s2, Js.discard r s1 = (Normal tt, s2)).
      { unfold Js.discard. destruct r; try (eexists; reflexivity).
        destruct rejected; eexists; reflexivity. }
      destruct Hd as (s2 & ->).
      apply IH. intros c' s' Hin. apply Hall. now right. }
  destruct H as (s' & ->). exists s'. reflexivity.
Qed.

End Executor.

(** C2. With a schema reference that is literally [false], [assertOptimized]
    throws the "'false' Schema invalidates all values" error for every
    value (also [undefined] and [null]) and every check list, and no check
    runs: the store is the one it was called in. *)
Theorem false_schema_invalidates_all_values
  (value : JsVal) (optimized : option (list CompiledCheck)) (s : Env) :
  Types.assertOptimized value (VBool false) optimized s
  = (Throw (VError Error "'false' Schema invalidates all values" None), s).
Proof.
  unfold Types.assertOptimized. simpl Js.is_false. cbv iota.
  reflexivity.
Qed.

(** C1, at the failing input.  The number builder compiles
    [{type: "number", minimum: 5}] into one check; on the value 4 this
    check finds the violation and _returns_ the [#minimum] error object;
    [assertOptimized] drops what a check returns, so it completes normally
    on 4 with the store unchanged. *)
Theorem returned_error_is_dropped :
  AssertNumber.optimize Examples.minimum5
  = Normal [AssertNumber.number_check Types.the_isNumber]
  /\ (forall s : Env,
        AssertNumber.number_check Types.the_isNumber (Examples.num 4)
          Examples.minimum5 s
        = (Normal (VError Error "#minimum: value is less than or equal to "
                     (Some (Examples.num 5))), s))
  /\ (forall s : Env,
        Types.assertOptimized (Examples.num 4) Examples.minimum5
          (Some [AssertNumber.number_check Types.the_isNumber]) s
        = (Normal VUndefined, s)).
Proof.
  split; [reflexivity |]. split; intros s.
  - reflexivity.
  - unfold Types.assertOptimized. simpl Js.is_false. cbv iota.
    unfold Types.for_of, bind.
    change (AssertNumber.number_check Types.the_isNumber (Examples.num 4)
              Examples.minimum5 s)
      with (Normal (VError Error "#minimum: value is less than or equal to "
                      (Some (Examples.num 5))), s).
    reflexivity.
Qed.

(* ------------------------------------------------------------------ *)
(** ** The size-threshold factories *)

Section SizeThreshold.
Import Types.

Lemma isInteger_denotes (x : spec_float) :
  Num.isInteger x = true <-> exists z, Spec.denotes x z.
Proof.
  destruct x as [s | s | | s m e]; simpl.
  - split; [intros _; now exists 0 | reflexivity].
  - split; [discriminate | intros [z []]].
  - split; [discriminate | intros [z []]].
  - destruct (0 <=? e) eqn:He.
    + split; [intros _; eexists; reflexivity | reflexivity].
    + apply Z.leb_gt in He.
      assert (Hpow : 0 < 2 ^ (- e)) by (apply Z.pow_pos_nonneg; lia).
      rewrite Z.eqb_eq, Z.mod_divide by lia. unfold Z.divide.
      split; intros [z Hz].
      * destruct s; simpl.
        -- exists (- z). lia.
        -- exists z. exact Hz.
      * destruct s; simpl in Hz.
        -- exists (- z). lia.
        -- exists z. exact Hz.
Qed.

Lemma positive_denotes (x : spec_float) (z : Z) :
  Spec.denotes x z -> (Num.ltb Num.zero x = true <-> 0 < z).
Proof.
  destruct x as [s | s | | s m e]; unfold Spec.denotes;
    try contradiction.
  - intros ->. unfold Num.ltb. simpl. split; [discriminate | lia].
  - pose proof (Pos2Z.is_pos m) as Hm.
    assert (Hl : Num.ltb Num.zero (S754_finite s m e) = negb s)
      by (destruct s; reflexivity).
    rewrite Hl. clear Hl.
    destruct (0 <=? e) eqn:He.
    + apply Z.leb_le in He. intros ->.
      assert (0 < 2 ^ e) by (apply Z.pow_pos_nonneg; lia).
      destruct s; unfold cond_Zopp, negb; split; intros Hx;
        try discriminate; try reflexivity; try nia; exfalso; nia.
    + apply Z.leb_gt in He.
      assert (0 < 2 ^ (- e)) by (apply Z.pow_pos_nonneg; lia).
      destruct s; unfold cond_Zopp, negb; intros Hz; split; intros Hx;
        try discriminate; try reflexivity; try nia; exfalso; nia.
Qed.

Lemma denotes_unique (x : spec_float) (z z' : Z) :
  Spec.denotes x z -> Spec.denotes x z' -> z = z'.
Proof.
  destruct x as [s | s | | s m e]; unfold Spec.denotes;
    try contradiction; try congruence.
  destruct (0 <=? e) eqn:He; [congruence |].
  apply Z.leb_gt in He.
  assert (0 < 2 ^ (- e)) by (apply Z.pow_pos_nonneg; lia).
  intros H1 H2. rewrite H1 in H2. nia.
Qed.

Lemma bad_size_spec (size : JsVal) :
  (Spec.positive_whole size /\ bad_size size = Normal false)
  \/ (~ Spec.positive_whole size /\ bad_size size = Normal true).
Proof.
  unfold bad_size, Spec.positive_whole.
  destruct size; simpl;
    try (right; split; [intros (x' & z & Hx & _); discriminate
                       | reflexivity]).
  destruct (Num.isInteger x) eqn:Hi.
  - apply isInteger_denotes in Hi. destruct Hi as [z Hz].
    pose proof (positive_denotes x z Hz) as Hpos.
    change (Js.gt (VNum x) (VNum Num.zero))
      with (Normal (A := bool) (Num.ltb Num.zero x)).
    simpl. destruct (Num.ltb Num.zero x) eqn:Hl.
    + left. split; [| reflexivity].
      exists x, z. repeat split; [assumption | now apply Hpos].
    + right. split; [| reflexivity].
      intros (x' & z' & Hx & Hz' & Hp). injection Hx as <-.
      rewrite (denotes_unique x z z' Hz Hz') in Hpos.
      apply Hpos in Hp. discriminate.
  - right. split; [| reflexivity].
    intros (x' & z & Hx & Hz & _). injection Hx as <-.
    assert (Num.isInteger x = true)
      by (apply isInteger_denotes; now exists z).
    congruence.
Qed.

End SizeThreshold.

(** C8. For every [size] that is a positive whole number, and in either
    mode, the factory returns its check without an error; for every other
    [size] (a number that is not positive or not whole, or no number at
    all) it throws the schema-definition error
    [#<key>: keyword must be a positive integer]. *)
Theorem size_threshold_compiles_iff_positive_whole
  (size : JsVal) (key : string) :
  (Spec.positive_whole size ->
     Types.assertSizeMax size key = Normal (Types.sizeMax_check key)
     /\ Types.assertSizeMin size key = Normal (Types.sizeMin_check key))
  /\ (~ Spec.positive_whole size ->
        Types.assertSizeMax size key = Throw (Types.size_error key)
        /\ Types.assertSizeMin size key = Throw (Types.size_error key)).
Proof.
  unfold Types.assertSizeMax, Types.assertSizeMin.
  destruct (bad_size_spec size) as [[Hp ->] | [Hn ->]]; simpl.
  - split; [intros _; split; reflexivity | intros Hn; contradiction].
  - split; [intros Hp; contradiction | intros _; split; reflexivity].
Qed.

(** Every positive integer below 2^53, written as a number, is such a
    size. *)
Lemma positive_integer_is_positive_whole (p : positive) :
  Zpos p < 2 ^ 53 -> Spec.positive_whole (VNum (Num.of_Z (Zpos p))).
Proof.
  intros Hp. exists (Num.of_Z (Zpos p)), (Zpos p).
  split; [reflexivity |]. split; [| lia].
  rewrite (of_Z_normal p Hp). pose proof (digits2_bound p Hp) as Hd.
  unfold Num.normal.
  destruct (53 - Zpos (digits2_pos p)) as [| k | k] eqn:E;
    unfold Spec.denotes, cond_Zopp.
  - change (0 <=? 0) with true. cbv iota. rewrite Z.pow_0_r. lia.
  - destruct (0 <=? Zpos (digits2_pos p) - 53) eqn:He.
    + apply Z.leb_le in He. lia.
    + rewrite iter_xO_mul.
      replace (- (Zpos (digits2_pos p) - 53)) with (Zpos k) by lia.
      reflexivity.
  - lia.
Qed.

(* ------------------------------------------------------------------ *)
(** ** The number builder *)

Section NumberBuilder.
Import Types.

Lemma Get_own (props : list (string * JsVal)) (k : string) (v : JsVal) :
  Js.own k props = Some v -> Js.Get (VObj props) k = Normal v.
Proof. intros H. unfold Js.Get. now rewrite H. Qed.

Lemma Get_absent (props : list (string * JsVal)) (k : string) :
  Js.own k props = None -> Spec.inherited k = false ->
  Js.Get (VObj props) k = Normal VUndefined.
Proof.
  intros H Hi. unfold Js.Get. rewrite H.
  unfold Spec.inherited in Hi. apply orb_false_elim in Hi.
  destruct Hi as [-> ->]. reflexivity.
Qed.

Lemma SFcompare_antisym (x y : spec_float) :
  SFcompare y x =
  match SFcompare x y with Some c => Some (CompOpp c) | None => None end.
Proof.
  destruct x as [s | s | | s m e], y as [s' | s' | | s' m' e']; simpl;
    try reflexivity;
    try (destruct s; reflexivity);
    try (destruct s'; reflexivity);
    try (destruct s, s'; reflexivity).
  change (Pos.compare_cont Eq m m') with (Pos.compare m m').
  change (Pos.compare_cont Eq m' m) with (Pos.compare m' m).
  rewrite (Z.compare_antisym e e'), (Pos.compare_antisym m m').
  destruct s, s'; try reflexivity;
    destruct (e ?= e'); try reflexivity; simpl;
    destruct (Pos.compare m m'); reflexivity.
Qed.

Lemma ltb_not_leb (m v : spec_float) :
  Num.ltb m v = true -> Num.leb v m = false /\ Num.ltb v m = false.
Proof.
  unfold Num.ltb, Num.leb, SFltb, SFleb. rewrite (SFcompare_antisym m v).
  destruct (SFcompare m v) as [[| |] |]; try discriminate.
  intros _. split; reflexivity.
Qed.

End NumberBuilder.

(** C6. Take a node with [minimum] set to a number [m] and
    [exclusiveMinimum] set to [true], and no other bound keyword
    ([maximum], [exclusiveMaximum], [multipleOf]), as in
    [{type: "number", minimum: 5, exclusiveMinimum: true}].  The number
    builder compiles it into one check, and on every numeric value [v]
    (one that passes the numeric test chosen by [type]) that check returns
    the [#minimum] error when [v <= m] and returns nothing when [v > m]. *)
Theorem exclusive_minimum_flag
  (props : list (string * JsVal)) (type : JsVal) (m v : spec_float)
  (checks : list CompiledCheck) :
  Js.Get (VObj props) "type" = Normal type ->
  Js.own "minimum" props = Some (VNum m) ->
  Js.own "exclusiveMinimum" props = Some (VBool true) ->
  Js.own "maximum" props = None ->
  Js.own "exclusiveMaximum" props = None ->
  Js.own "multipleOf" props = None ->
  AssertNumber.optimize (VObj props) = Normal checks ->
  Types.apply (AssertNumber.assertion_of type) (VNum v) = true ->
  checks = [AssertNumber.number_check (AssertNumber.assertion_of type)]
  /\ forall s : Env,
       (Num.leb v m = true ->
          AssertNumber.number_check (AssertNumber.assertion_of type)
            (VNum v) (VObj props) s
          = (Normal (VError Error "#minimum: value is less than or equal to "
                       (Some (VNum m))), s))
       /\ (Num.ltb m v = true ->
             AssertNumber.number_check (AssertNumber.assertion_of type)
               (VNum v) (VObj props) s
             = (Normal VUndefined, s)).
Proof.
  intros Htype Hmin Hexcl Hmax Hemax Hmult Hopt Hv.
  pose proof (Get_own _ _ _ Hmin) as Gmin.
  pose proof (Get_own _ _ _ Hexcl) as Gexcl.
  pose proof (Get_absent _ "maximum" Hmax eq_refl) as Gmax.
  pose proof (Get_absent _ "exclusiveMaximum" Hemax eq_refl) as Gemax.
  pose proof (Get_absent _ "multipleOf" Hmult eq_refl) as Gmult.
  split.
  - unfold AssertNumber.optimize in Hopt.
    rewrite Htype, Gexcl, Gemax, Gmax, Gmin, Gmult in Hopt.
    cbn [bindC Types.isUndefined Types.isNumber negb orb] in Hopt.
    unfold AssertNumber.ASSERT_MIN in Hopt.
    cbn [Types.isUndefined Types.isNumber Types.isBoolean negb] in Hopt.
    destruct (Types.apply (AssertNumber.assertion_of type) (VNum m));
      cbn [bindC negb] in Hopt; [| discriminate].
    injection Hopt as <-. reflexivity.
  - intros s. unfold AssertNumber.number_check, lift.
    rewrite Hv, Gmax, Gemax, Gmin, Gexcl, Gmult.
    cbn [negb bindC Types.isNumber Js.ToBoolean].
    change (Js.le (VNum v) (VNum m)) with (Normal (A := bool) (Num.leb v m)).
    change (Js.lt (VNum v) (VNum m)) with (Normal (A := bool) (Num.ltb v m)).
    cbn [bindC].
    split; intros H.
    + rewrite H. reflexivity.
    + destruct (ltb_not_leb m v H) as [-> ->]. reflexivity.
Qed.

(** The node and the values of the specification's example: 5 and 4 fail
    with [#minimum], 5.01 passes. *)
Lemma exclusive_minimum_flag_witness :
  Js.Get Examples.exclusive5 "type" = Normal (VStr "number")
  /\ Num.leb (Num.of_Z 5) (Num.of_Z 5) = true
  /\ forall s : Env,
       AssertNumber.number_check Types.the_isNumber (Examples.num 5)
         Examples.exclusive5 s
       = (Normal (VError Error "#minimum: value is less than or equal to "
                    (Some (Examples.num 5))), s).
Proof.
  split; [reflexivity |]. split; [reflexivity |]. intros s.
  refine (proj1 (proj2 (exclusive_minimum_flag
    [("type", VStr "number"); ("minimum", Examples.num 5);
     ("exclusiveMinimum", VBool true)]
    (VStr "number") (Num.of_Z 5) (Num.of_Z 5)
    [AssertNumber.number_check Types.the_isNumber]
    eq_refl eq_refl eq_refl eq_refl eq_refl eq_refl eq_refl eq_refl) s) _).
  reflexivity.
Defined.

Example exclusive_minimum_examples (s : Env) :
  AssertNumber.number_check Types.the_isNumber (VNum (Num.decimal 501 100))
    Examples.exclusive5 s = (Normal VUndefined, s)
  /\ AssertNumber.number_check Types.the_isNumber (Examples.num 4)
       Examples.exclusive5 s
     = (Normal (VError Error "#minimum: value is less than or equal to "
                  (Some (Examples.num 5))), s).
Proof. split; reflexivity. Qed.

(** C9. The number builder compiles [{type: "number", multipleOf: 0.5}]
    into one check; that check accepts 1.5 and returns the [#multipleOf]
    error on 1.3; and on any number [x] and any node of this shape the
    decision is [(x / m) % 1 !== 0], a division-remainder test on the
    value and on the [multipleOf] the node holds when the check runs. *)
Theorem multiple_of_half :
  AssertNumber.optimize Examples.multiple_of_half
  = Normal [AssertNumber.number_check Types.the_isNumber]
  /\ (forall s : Env,
        AssertNumber.number_check Types.the_isNumber
          (VNum (Num.decimal 3 2)) Examples.multiple_of_half s
        = (Normal VUndefined, s))
  /\ (forall s : Env,
        AssertNumber.number_check Types.the_isNumber
          (VNum (Num.decimal 13 10)) Examples.multiple_of_half s
        = (Normal (VError Error "#multipleOf: value is not a multiple of "
                     (Some Examples.half)), s))
  /\ (forall (x m : spec_float) (s : Env),
        AssertNumber.number_check Types.the_isNumber (VNum x)
          (VObj [("type", VStr "number"); ("multipleOf", VNum m)]) s
        = (if negb (Num.eqb (Num.rem1 (Num.div x m)) Num.zero)
           then Normal (VError Error "#multipleOf: value is not a multiple of "
                          (Some (VNum m)))
           else Normal VUndefined, s)).
Proof.
  split; [reflexivity |].
  split; [intros s; vm_compute; reflexivity |].
  split; [intros s; vm_compute; reflexivity |].
  intros x m s. reflexivity.
Qed.

(* ------------------------------------------------------------------ *)
(** ** The object builder: plain objects *)

Section PlainObjects.

Lemma mem_In (k : string) (l : list string) : Js.mem k l = true <-> In k l.
Proof.
  unfold Js.mem. rewrite existsb_exists. split.
  - intros (x & Hin & Hx). apply String.eqb_eq in Hx. now subst.
  - intros Hin. exists k. split; [assumption | apply String.eqb_refl].
Qed.

Lemma own_keys (props : list (string * JsVal)) (k : string) :
  In k (Js.keys props) <-> exists v, Js.own k props = Some v.
Proof.
  induction props as [| [k' v'] props IH]; simpl.
  - split; [contradiction | intros [v Hv]; discriminate].
  - destruct (String.eqb k k') eqn:E.
    + apply String.eqb_eq in E. subst. split; eauto.
    + apply String.eqb_neq in E. rewrite <- IH. split.
      * intros [H | H]; [congruence | assumption].
      * now right.
Qed.

Lemma own_app (props : list (string * JsVal)) (k k' : string) (v : JsVal) :
  Js.own k (props ++ [(k', v)]) =
  match Js.own k props with
  | Some x => Some x
  | None => if String.eqb k k' then Some v else None
  end.
Proof.
  induction props as [| [k0 v0] props IH]; simpl.
  - reflexivity.
  - destruct (String.eqb k k0); [reflexivity | exact IH].
Qed.

End PlainObjects.

(* ------------------------------------------------------------------ *)
(** ** The object builder: [dependencies] *)

Section Dependencies.
Import Types.
Variable OPTIMIZED : JsVal -> option (list CompiledCheck).

Lemma forallb_isString (items : list JsVal) :
  forallb isString items = true
  <-> Forall (fun i => exists s, i = VStr s) items.
Proof.
  rewrite forallb_forall, Forall_forall. split; intros H i Hi.
  - specialize (H i Hi). destruct i; try discriminate. eauto.
  - destruct (H i Hi) as [s ->]. reflexivity.
Qed.

Lemma dependency_ok_spec (v : JsVal) :
  AssertObject.dependency_ok v = true
  <-> Spec.array_of_strings v \/ Spec.sub_schema v.
Proof.
  unfold AssertObject.dependency_ok, Spec.array_of_strings, Spec.sub_schema.
  destruct v; simpl;
    try (split; [discriminate
                | intros [(i & Hi & _) | [(p & Hp) | (b' & Hb)]];
                  discriminate]).
  - split; [intros _; right; right; eauto | reflexivity].
  - rewrite !orb_false_r.
    assert (E : (match items with [] => true | _ :: _ => false end
                 || match items with
                    | [] => false
                    | _ :: _ => forallb isString items
                    end) = forallb isString items)
      by (destruct items; [reflexivity | simpl; reflexivity]).
    rewrite E, forallb_isString. split.
    + intros H. left. eauto.
    + intros [(i & Hi & HF) | [(p & Hp) | (b & Hb)]]; try discriminate.
      injection Hi as <-. exact HF.
  - split; [intros _; right; left; eauto | reflexivity].
Qed.

Lemma check_entries_spec (props : list (string * JsVal)) (ks : list string) :
  (forall k, In k ks -> exists v, Js.own k props = Some v) ->
  AssertObject.check_entries (VObj props) ks =
  if forallb (fun k => match Js.own k props with
                       | Some v => AssertObject.dependency_ok v
                       | None => true
                       end) ks
  then Normal tt else Throw AssertObject.dependencies_error.
Proof.
  induction ks as [| k ks IH]; intros Hown; simpl.
  - reflexivity.
  - destruct (Hown k (or_introl eq_refl)) as [v Hv]. rewrite Hv. simpl.
    destruct (AssertObject.dependency_ok v); simpl; [| reflexivity].
    apply IH. intros k' Hk'. apply Hown. now right.
Qed.

Lemma ASSERT_DEPENDENCIES_spec (props : list (string * JsVal)) :
  AssertObject.ASSERT_DEPENDENCIES OPTIMIZED (VObj props) =
  if forallb (fun k => match Js.own k props with
                       | Some v => AssertObject.dependency_ok v
                       | None => true
                       end) (Js.keys props)
  then Normal (AssertObject.dependencies_check OPTIMIZED)
  else Throw AssertObject.dependencies_error.
Proof.
  unfold AssertObject.ASSERT_DEPENDENCIES. simpl.
  rewrite check_entries_spec by (intros k Hk; now apply own_keys).
  destruct (forallb _ _); reflexivity.
Qed.

(** C4, amended.  Compiling a [dependencies] mapping throws the
    schema-definition error exactly when some entry is neither an array of
    strings (empty or not) nor a sub-schema (a mapping or a boolean), and
    returns the dependency check exactly when every entry is one of
    these. *)
Theorem dependencies_compile_error_iff (props : list (string * JsVal)) :
  (AssertObject.ASSERT_DEPENDENCIES OPTIMIZED (VObj props)
   = Throw AssertObject.dependencies_error
   <-> exists k v, Js.own k props = Some v
                   /\ ~ (Spec.array_of_strings v \/ Spec.sub_schema v))
  /\ (AssertObject.ASSERT_DEPENDENCIES OPTIMIZED (VObj props)
      = Normal (AssertObject.dependencies_check OPTIMIZED)
      <-> forall k v, Js.own k props = Some v ->
                      Spec.array_of_strings v \/ Spec.sub_schema v).
Proof.
  rewrite ASSERT_DEPENDENCIES_spec.
  destruct (forallb _ (Js.keys props)) eqn:E.
  - rewrite forallb_forall in E.
    assert (Hall : forall k v, Js.own k props = Some v ->
                     Spec.array_of_strings v \/ Spec.sub_schema v).
    { intros k v Hv. apply dependency_ok_spec.
      assert (Hk : In k (Js.keys props)) by (apply own_keys; eauto).
      specialize (E k Hk). now rewrite Hv in E. }
    split; split; try discriminate; auto.
    intros (k & v & Hv & Hn). exfalso. apply Hn. eauto.
  - assert (Hex : exists k v, Js.own k props = Some v
                    /\ ~ (Spec.array_of_strings v \/ Spec.sub_schema v)).
    { apply Bool.not_true_iff_false in E.
      destruct (existsb (fun k => negb match Js.own k props with
                                       | Some v => AssertObject.dependency_ok v
                                       | None => true
                                       end) (Js.keys props)) eqn:X.
      - apply existsb_exists in X. destruct X as (k & Hk & Hb).
        destruct (Js.own k props) as [v |] eqn:Hv; [| discriminate].
        exists k, v. split; [exact Hv |].
        intros Hok. apply dependency_ok_spec in Hok.
        rewrite Hok in Hb. discriminate.
      - exfalso. apply E. apply forallb_forall. intros k Hk.
        destruct (match Js.own k props with
                  | Some v => AssertObject.dependency_ok v
                  | None => true
                  end) eqn:Y; [reflexivity |].
        assert (existsb (fun k => negb match Js.own k props with
                                       | Some v => AssertObject.dependency_ok v
                                       | None => true
                                       end) (Js.keys props) = true).
        { apply existsb_exists. exists k. split; [assumption |].
          now rewrite Y. }
        congruence. }
    split; split; try discriminate; auto.
    intros Hall. exfalso. destruct Hex as (k & v & Hv & Hn).
    apply Hn. eauto.
Qed.

End Dependencies.

(** C4 as stated fails: the entry [[]] of the mapping [{a: []}] is an array
    but not a non-empty array of strings, and it is no sub-schema, yet the
    mapping compiles. *)
Lemma empty_array_dependency_is_accepted :
  AssertObject.ASSERT_DEPENDENCIES Examples.nothing_compiled
    Examples.depends_on_nothing
  = Normal (AssertObject.dependencies_check Examples.nothing_compiled)
  /\ Js.Get Examples.depends_on_nothing "a" = Normal (VArr [])
  /\ Types.isArray (VArr []) = true
  /\ Types.isEnum_isString (VArr []) = false
  /\ Types.isSchema (VArr []) = false.
Proof. repeat split. Qed.

(* ------------------------------------------------------------------ *)
(** ** The object builder: [required] *)

Section Required.
Import Types.

(** The lookup set [reduce] builds holds exactly the listed names, each
    mapped to [true] (the name [__proto__] apart, which is never stored). *)
Lemma reduce_spec (names : list string) (acc : list (string * JsVal)) :
  ~ In "__proto__" names ->
  exists req,
    AssertObject.reduce (map VStr names) acc = Normal req
    /\ forall k, Js.own k req =
                 match Js.own k acc with
                 | Some x => Some x
                 | None => if Js.mem k names then Some (VBool true) else None
                 end.
Proof.
  revert acc. induction names as [| name names IH]; intros acc Hp; simpl.
  - exists acc. split; [reflexivity |]. intros k. now destruct (Js.own k acc).
  - assert (Hname : String.eqb name "__proto__" = false).
    { apply String.eqb_neq. intros ->. apply Hp. now left. }
    assert (Hp' : ~ In "__proto__" names) by (intros H; apply Hp; now right).
    unfold AssertObject.set_true. simpl. rewrite Hname.
    destruct (Js.own name acc) as [x |] eqn:Hown; simpl.
    + destruct (IH acc Hp') as (req & -> & Hreq). exists req.
      split; [reflexivity |]. intros k. rewrite Hreq.
      destruct (Js.own k acc) eqn:Hk; [reflexivity |].
      destruct (String.eqb k name) eqn:E; [| reflexivity].
      apply String.eqb_eq in E. subst. congruence.
    + destruct (IH (acc ++ [(name, VBool true)]) Hp') as (req & -> & Hreq).
      exists req. split; [reflexivity |]. intros k. rewrite Hreq, own_app.
      destruct (Js.own k acc) eqn:Hk; [reflexivity |].
      destruct (String.eqb k name); [| reflexivity].
      now destruct (Js.mem k names).
Qed.

Lemma ASSERT_REQUIRED_spec (names : list string) :
  ~ In "__proto__" names ->
  exists req,
    AssertObject.ASSERT_REQUIRED (VArr (map VStr names))
    = Normal (VObj req, Some AssertObject.assertReq)
    /\ forall k, Js.own k req =
                 if Js.mem k names then Some (VBool true) else None.
Proof.
  intros Hp. destruct (reduce_spec names [] Hp) as (req & Hr & Hreq).
  exists req. split; [| exact Hreq].
  unfold AssertObject.ASSERT_REQUIRED. simpl.
  assert (Hs : forallb isString (map VStr names) = true).
  { apply forallb_forall. intros i Hi. apply in_map_iff in Hi.
    destruct Hi as (s & <- & _). reflexivity. }
  rewrite Hs, Hr. reflexivity.
Qed.



Variable innerList : list CompiledCheck.
Variables vprops rprops req : list (string * JsVal).
Variable names : list string.

Hypothesis req_holds : forall k, Js.own k req =
                                 if Js.mem k names then Some (VBool true)
                                 else None.
Hypothesis inherited_listed : forall k,
  In k (Js.keys vprops) -> Spec.inherited k = true -> In k names.
Hypothesis no_proto : ~ In "__proto__" names.
Hypothesis inner_completes : forall k val s,
  Js.own k vprops = Some val ->
  exists s',
    assertOptimized (VArr [VObj vprops; VStr k; val]) (VObj rprops)
      (Some innerList) s
    = (Normal VUndefined, s').

Lemma held_spec (k : string) :
  In k (Js.keys vprops) ->
  exists held, Js.Get (VObj req) k = Normal held
               /\ Js.ToBoolean held = Js.mem k names.
Proof.
  intros Hk. unfold Js.Get. rewrite req_holds.
  destruct (Js.mem k names) eqn:Hm.
  - exists (VBool true). split; reflexivity.
  - assert (Hi : Spec.inherited k = false).
    { destruct (Spec.inherited k) eqn:Hi; [| reflexivity].
      apply inherited_listed in Hi; [| assumption].
      apply mem_In in Hi. congruence. }
    unfold Spec.inherited in Hi. apply orb_false_elim in Hi.
    destruct Hi as [-> ->]. exists VUndefined. split; reflexivity.
Qed.

Lemma for_keys_spec (ks : list string) :
  (forall k, In k ks -> In k (Js.keys vprops)) ->
  forall (n : nat) (s : Env), exists s',
    AssertObject.for_keys innerList (VObj req) (VObj vprops) (VObj rprops)
      ks n s
    = (Normal (n + List.length (Spec.counted names ks))%nat, s').
Proof.
  induction ks as [| k ks IH]; intros Hks n s;
    cbn [AssertObject.for_keys Spec.counted filter List.length].
  - exists s. unfold ret. now rewrite Nat.add_0_r.
  - assert (Hk : In k (Js.keys vprops)) by (apply Hks; now left).
    destruct (proj1 (own_keys vprops k) Hk) as [val Hval].
    destruct (held_spec k Hk) as (held & Hheld & Htruthy).
    unfold bind at 1, lift at 1. unfold Js.Get at 1. rewrite Hval.
    unfold bind at 1, lift at 1. rewrite Hheld, Htruthy.
    assert (Hinner : exists s1,
      (if AssertObject.nonempty innerList
       then r <- assertOptimized (VArr [VObj vprops; VStr k; val])
                   (VObj rprops) (Some innerList) ;;
            Js.await r ;;; ret tt
       else ret tt) s = (Normal tt, s1)).
    { destruct (AssertObject.nonempty innerList).
      - destruct (inner_completes k val s Hval) as [s1 Hs1].
        exists s1. unfold bind. rewrite Hs1. reflexivity.
      - exists s. reflexivity. }
    destruct Hinner as [s1 Hs1]. unfold bind at 1. rewrite Hs1.
    assert (Hks' : forall k', In k' ks -> In k' (Js.keys vprops))
      by (intros k' Hk'; apply Hks; now right).
    destruct (Js.mem k names).
    + destruct (IH Hks' (S n) s1) as [s' Hs']. exists s'. rewrite Hs'.
      simpl. now rewrite Nat.add_succ_r.
    + destruct (IH Hks' n s1) as [s' Hs']. exists s'. exact Hs'.
Qed.

Lemma tally_spec (s : Env) : exists s',
  AssertObject.tally innerList (VObj req) (VObj vprops) (VObj rprops)
    (Js.keys vprops) s
  = (Normal (List.length (Spec.counted names (Js.keys vprops))), s').
Proof.
  unfold AssertObject.tally.
  assert (Hrun : exists s',
    AssertObject.for_keys innerList (VObj req) (VObj vprops) (VObj rprops)
      (Js.keys vprops) 0 s
    = (Normal (List.length (Spec.counted names (Js.keys vprops))), s'))
    by exact (for_keys_spec (Js.keys vprops) (fun k H => H) 0%nat s).
  destruct Hrun as [s' Hs'].
  destruct (AssertObject.nonempty innerList).
  - exists s'. exact Hs'.
  - unfold bind, lift, ret. simpl Js.Object_keys. cbv beta iota.
    destruct (AssertObject.nonempty (Js.keys req)) eqn:Hreq.
    + exists s'. exact Hs'.
    + exists s. f_equal. f_equal.
      assert (Hnone : forall k, Js.mem k names = false).
      { intros k. destruct (Js.mem k names) eqn:Hm; [| reflexivity].
        assert (Hin : In k (Js.keys req))
          by (apply own_keys; rewrite req_holds, Hm; eauto).
        destruct (Js.keys req); [contradiction | discriminate]. }
      unfold Spec.counted. clear inherited_listed Hs'.
      induction (Js.keys vprops) as [| k ks IHk]; simpl.
      * reflexivity.
      * rewrite Hnone. exact IHk.
Qed.

End Required.

Section RequiredCheck.
Import Types.

(** The required-keys check compares the tally with the length of the
    [required] array the node holds when the check runs. *)
Lemma assertReq_spec (rprops : list (string * JsVal)) (items : list JsVal)
  (len n : nat) (s : Env) :
  Js.own "required" rprops = Some (VArr items) ->
  AssertObject.assertReq (AssertObject.results len n) (VObj rprops) s
  = (Normal (if Num.eqb (Num.of_nat n) (Num.of_nat (List.length items))
             then VPromise false VUndefined
             else VPromise true AssertObject.required_error), s).
Proof.
  intros Hreq. unfold AssertObject.assertReq, Js.async, lift.
  rewrite (Get_own _ _ _ Hreq).
  change (Js.Get (AssertObject.results len n) "reqCount")
    with (Normal (AssertObject.count n)).
  cbn [bindC Js.Get String.eqb Ascii.eqb Bool.eqb].
  change (String.eqb "length" "length") with true. cbv iota.
  unfold AssertObject.count. cbn [bindC Js.strict_equal].
  destruct (Num.eqb (Num.of_nat n) (Num.of_nat (List.length items)));
    reflexivity.
Qed.

End RequiredCheck.




(* ------------------------------------------------------------------ *)
(** ** The object builder: companion keys, captured names, dropped
       rejections *)

Section Companions.
Import Types.

Lemma for_depKeys_undefined
  (vprops : list (string * JsVal)) (key d : string) (depKeys : list JsVal) :
  Forall (fun dk => exists s, dk = VStr s /\ s <> "__proto__") depKeys ->
  In (VStr d) depKeys ->
  Js.own d vprops = Some VUndefined ->
  AssertObject.for_depKeys (VObj vprops) key depKeys
  = Throw (AssertObject.missing_dependency key).
Proof.
  intros HF Hin Hd. induction depKeys as [| dk rest IH]; [contradiction |].
  inversion HF as [| ? ? (s & -> & Hs) HF']; subst.
  cbn [AssertObject.for_depKeys Js.GetV Js.ToPropertyKey bindC].
  unfold Js.Get. destruct (Js.own s vprops) as [x |] eqn:Hown.
  - cbn [bindC]. destruct (isUndefined x) eqn:Hx; [reflexivity |].
    apply IH; [assumption |].
    destruct Hin as [Heq | Hin]; [| assumption].
    injection Heq as ->. rewrite Hd in Hown. injection Hown as <-.
    discriminate.
  - apply String.eqb_neq in Hs. rewrite Hs.
    assert (Hrest : In (VStr d) rest).
    { destruct Hin as [Heq | Hin]; [| assumption].
      injection Heq as ->. congruence. }
    destruct (Js.mem s Js.ObjectPrototype); cbn [bindC isUndefined].
    + now apply IH.
    + reflexivity.
Qed.

End Companions.

(** C10. Let the array-form dependency entry of [key] list a companion key
    [d] that the value owns with the value [undefined].  The compiled
    dependency check looks the companion's value up and tests it for
    [undefined], so its promise is rejected with the [#dependencies] error
    although the key exists on the object.  The required tally counts that
    same key, when [required] lists it: the step of the pass over [d] adds
    one, and the tally of the whole pass, run with the node's per-key
    checks, is the number of the value's own keys that [required] lists,
    [d] among them -- provided the value owns no other name inherited
    from [Object.prototype] and the per-key checks run to an end on the
    triples the pass hands them. *)
Theorem undefined_companion_is_absent_but_tallied
  (OPTIMIZED : JsVal -> option (list CompiledCheck))
  (innerList : list CompiledCheck)
  (vprops rprops dprops : list (string * JsVal))
  (key d : string) (val : JsVal) (depKeys : list JsVal)
  (names : list string) :
  Js.own "dependencies" rprops = Some (VObj dprops) ->
  Js.own key dprops = Some (VArr depKeys) ->
  Forall (fun dk => exists s, dk = VStr s /\ s <> "__proto__") depKeys ->
  In (VStr d) depKeys ->
  Js.own d vprops = Some VUndefined ->
  In d names ->
  ~ In "__proto__" names ->
  (forall s : Env,
     AssertObject.dependencies_check OPTIMIZED
       (VArr [VObj vprops; VStr key; val]) (VObj rprops) s
     = (Normal (VPromise true (AssertObject.missing_dependency key)), s))
  /\ exists req,
       AssertObject.ASSERT_REQUIRED (VArr (map VStr names))
       = Normal (VObj req, Some AssertObject.assertReq)
       /\ (forall (ref : JsVal) (n : nat) (s : Env),
             AssertObject.for_keys [] (VObj req) (VObj vprops) ref [d] n s
             = (Normal (S n), s))
       /\ In d (Spec.counted names (Js.keys vprops))
       /\ ((forall k, In k (Js.keys vprops) -> Spec.inherited k = true ->
                      In k names) ->
           (forall k v s,
              Js.own k vprops = Some v ->
              exists s',
                Types.assertOptimized (VArr [VObj vprops; VStr k; v])
                  (VObj rprops) (Some innerList) s
                = (Normal VUndefined, s')) ->
           forall s : Env, exists s' : Env,
             AssertObject.tally innerList (VObj req) (VObj vprops)
               (VObj rprops) (Js.keys vprops) s
             = (Normal (List.length (Spec.counted names (Js.keys vprops))),
                s')).
Proof.
  intros Hdeps Hentry HF Hin Hd Hname Hproto. split.
  - intros s. unfold AssertObject.dependencies_check, Js.async.
    unfold bind, lift. cbn [Js.destructure3 nth Js.ToPropertyKey].
    rewrite (Get_own _ _ _ Hdeps), (Get_own _ _ _ Hentry).
    cbn [Types.isUndefined].
    rewrite (for_depKeys_undefined vprops key d depKeys HF Hin Hd).
    reflexivity.
  - destruct (ASSERT_REQUIRED_spec names Hproto) as (req & Hc & Hown).
    exists req. split; [exact Hc |]. split; [| split].
    + intros ref n s.
      cbn [AssertObject.for_keys AssertObject.nonempty].
      unfold bind, lift, ret. rewrite (Get_own _ _ _ Hd).
      unfold Js.Get. rewrite Hown.
      apply mem_In in Hname. rewrite Hname. reflexivity.
    + apply filter_In. split.
      * apply own_keys. eauto.
      * now apply mem_In.
    + intros Hinh Hinner s.
      exact (tally_spec innerList vprops rprops req names Hown Hinh Hinner s).
Qed.

(** [{dependencies: {a: ["b"]}, required: ["b"]}] on [{a: 1, b: undefined}]:
    the node compiles into the object check with the dependency check as
    its one per-key check; that check refuses the key [a], and the tally
    of the pass is one, for the key [b]. *)
Lemma undefined_companion_is_absent_but_tallied_witness :
  Js.Get Examples.a_1_b_undefined "b" = Normal VUndefined
  /\ fst (AssertObject.optimize Examples.nothing_compiled Examples.a_needs_b
            Examples.env0)
     = Normal [AssertObject.object_check
                 [AssertObject.dependencies_check Examples.nothing_compiled]
                 [AssertObject.assertReq] (VObj [("b", VBool true)])]
  /\ (forall s : Env,
        AssertObject.dependencies_check Examples.nothing_compiled
          (VArr [Examples.a_1_b_undefined; VStr "a"; Examples.num 1])
          Examples.a_needs_b s
        = (Normal (VPromise true (AssertObject.missing_dependency "a")), s))
  /\ exists req,
       AssertObject.ASSERT_REQUIRED (VArr (map VStr ["b"]))
       = Normal (VObj req, Some AssertObject.assertReq)
       /\ (forall (ref : JsVal) (n : nat) (s : Env),
             AssertObject.for_keys [] (VObj req) Examples.a_1_b_undefined
               ref ["b"] n s
             = (Normal (S n), s))
       /\ forall s : Env, exists s' : Env,
            AssertObject.tally
              [AssertObject.dependencies_check Examples.nothing_compiled]
              (VObj req) Examples.a_1_b_undefined Examples.a_needs_b
              ["a"; "b"] s
            = (Normal 1%nat, s').
Proof.
  split; [reflexivity |]. split; [reflexivity |].
  destruct (undefined_companion_is_absent_but_tallied
              Examples.nothing_compiled
              [AssertObject.dependencies_check Examples.nothing_compiled]
              [("a", Examples.num 1); ("b", VUndefined)]
              [("dependencies", VObj [("a", VArr [VStr "b"])]);
               ("required", VArr [VStr "b"])]
              [("a", VArr [VStr "b"])] "a" "b" (Examples.num 1) [VStr "b"]
              ["b"])
    as (Hcheck & req & Hreq & Hstep & _ & Htally).
  - reflexivity.
  - reflexivity.
  - repeat constructor. exists "b". split; [reflexivity | discriminate].
  - now left.
  - reflexivity.
  - now left.
  - simpl. intuition discriminate.
  - split; [exact Hcheck |]. exists req.
    split; [exact Hreq |]. split; [exact Hstep |].
    apply Htally.
    + intros k [<- | [<- | []]] H; [discriminate H | now left].
    + intros k v s H. cbn [Js.own] in H.
      destruct (String.eqb k "a") eqn:Ea.
      * apply String.eqb_eq in Ea. subst k. injection H as <-.
        eexists. reflexivity.
      * destruct (String.eqb k "b") eqn:Eb; [| discriminate H].
        apply String.eqb_eq in Eb. subst k. injection H as <-.
        eexists. reflexivity.
Defined.

Section LiveNode.
Import Types.

Lemma assertSize_returns (size : JsVal) (key : string)
  (cmax cmin : CompiledCheck) :
  assertSizeMax size key = Normal cmax ->
  assertSizeMin size key = Normal cmin ->
  cmax = sizeMax_check key /\ cmin = sizeMin_check key.
Proof.
  unfold assertSizeMax, assertSizeMin.
  destruct (bad_size size) as [[|] | e |]; simpl; try discriminate.
  intros H1 H2. injection H1 as <-. injection H2 as <-. now split.
Qed.

End LiveNode.

(** C7, amended.  A size-threshold check compares the measured count with
    the keyword value the node holds when the check runs, whatever [size]
    it was compiled from.  The required-keys check compares the tally with
    the length of the [required] array the node holds when the check runs,
    but the names the tally counts are those of the lookup set built from
    [required] at compile time. *)
Theorem thresholds_are_live_required_names_are_captured
  (size : JsVal) (key : string) (cmax cmin : CompiledCheck)
  (names : list string)
  (req : JsVal) (check : option CompiledCheck) :
  Types.assertSizeMax size key = Normal cmax ->
  Types.assertSizeMin size key = Normal cmin ->
  AssertObject.ASSERT_REQUIRED (VArr (map VStr names)) = Normal (req, check) ->
  ~ In "__proto__" names ->
  (forall (rprops : list (string * JsVal)) (t : spec_float)
          (length reqCount : nat) (s : Env),
     Js.own key rprops = Some (VNum t) ->
     cmax (AssertObject.results length reqCount) (VObj rprops) s
     = (if Num.ltb t (Num.of_nat length)
        then Throw (VError Error
               ("#" ++ key ++ ": value maximum exceeded")%string None)
        else Normal VUndefined, s)
     /\ cmin (AssertObject.results length reqCount) (VObj rprops) s
        = (if Num.ltb (Num.of_nat length) t
           then Throw (VError Error
                  ("#" ++ key ++ ": value minimum not met")%string None)
           else Normal VUndefined, s))
  /\ check = Some AssertObject.assertReq
  /\ (forall (rprops : list (string * JsVal)) (items : list JsVal)
             (length reqCount : nat) (s : Env),
        Js.own "required" rprops = Some (VArr items) ->
        AssertObject.assertReq (AssertObject.results length reqCount)
          (VObj rprops) s
        = (Normal (if Num.eqb (Num.of_nat reqCount)
                        (Num.of_nat (List.length items))
                   then VPromise false VUndefined
                   else VPromise true AssertObject.required_error), s))
  /\ exists props, req = VObj props
       /\ forall k, Js.own k props =
                    if Js.mem k names then Some (VBool true) else None.
Proof.
  intros Hmax Hmin Hreq Hproto.
  destruct (assertSize_returns size key cmax cmin Hmax Hmin) as [-> ->].
  destruct (ASSERT_REQUIRED_spec names Hproto) as (props & Hc & Hown).
  rewrite Hc in Hreq. injection Hreq as <- <-.
  split; [| split; [reflexivity | split]].
  - intros rprops t length reqCount s Ht.
    unfold Types.sizeMax_check, Types.sizeMin_check, lift.
    rewrite (Get_own _ _ _ Ht).
    change (Js.Get (AssertObject.results length reqCount) "length")
      with (Normal (AssertObject.count length)).
    unfold AssertObject.count. cbn [bindC Js.gt Js.lt Js.ToNumber].
    split.
    + destruct (Num.ltb t (Num.of_nat length)); reflexivity.
    + destruct (Num.ltb (Num.of_nat length) t); reflexivity.
  - intros rprops items length reqCount s Hr. now apply assertReq_spec.
  - exists props. split; [reflexivity | exact Hown].
Qed.

Lemma thresholds_are_live_required_names_are_captured_witness :
  Types.assertSizeMax (Examples.num 2) "maxProperties"
  = Normal (Types.sizeMax_check "maxProperties")
  /\ (forall (rprops : list (string * JsVal)) (t : spec_float)
             (length reqCount : nat) (s : Env),
        Js.own "maxProperties" rprops = Some (VNum t) ->
        Types.sizeMax_check "maxProperties"
          (AssertObject.results length reqCount) (VObj rprops) s
        = (if Num.ltb t (Num.of_nat length)
           then Throw (VError Error "#maxProperties: value maximum exceeded"
                         None)
           else Normal VUndefined, s)
        /\ Types.sizeMin_check "maxProperties"
             (AssertObject.results length reqCount) (VObj rprops) s
           = (if Num.ltb (Num.of_nat length) t
              then Throw (VError Error
                     "#maxProperties: value minimum not met" None)
              else Normal VUndefined, s)).
Proof.
  split; [reflexivity |].
  refine (proj1 (thresholds_are_live_required_names_are_captured
    (Examples.num 2) "maxProperties"
    (Types.sizeMax_check "maxProperties")
    (Types.sizeMin_check "maxProperties") ["a"]
    (VObj [("a", VBool true)]) (Some AssertObject.assertReq)
    eq_refl eq_refl eq_refl _)).
  simpl. intuition discriminate.
Defined.

(** C7 as stated fails for the required-keys check.  The node
    [{required: ["a"]}] is compiled, then its keyword is changed to
    [["b"]]: run against the changed node, the compiled check still
    tallies the name [a], so the value [{b: 1}] produces a [#required]
    rejection; the check compiled from the changed node finds every
    required key. *)
Lemma required_names_are_not_reread :
  AssertObject.optimize Examples.nothing_compiled Examples.required_a
    Examples.env0
  = (Normal [AssertObject.object_check [] [AssertObject.assertReq]
               (VObj [("a", VBool true)])], mkEnv [false] [])
  /\ AssertObject.object_check [] [AssertObject.assertReq]
       (VObj [("a", VBool true)]) Examples.b_1 Examples.required_b
       (mkEnv [false] [])
     = (Normal (VPromise false VUndefined),
        mkEnv [false] [AssertObject.required_error])
  /\ AssertObject.optimize Examples.nothing_compiled Examples.required_b
       Examples.env0
     = (Normal [AssertObject.object_check [] [AssertObject.assertReq]
                  (VObj [("b", VBool true)])], mkEnv [false] [])
  /\ AssertObject.object_check [] [AssertObject.assertReq]
       (VObj [("b", VBool true)]) Examples.b_1 Examples.required_b
       (mkEnv [false] [])
     = (Normal (VPromise false VUndefined), mkEnv [false] []).
Proof. repeat split. Qed.

(** C5, at the failing input.  The object builder compiles
    [{type: "object", additionalProperties: false,
      properties: {a: {type: "string"}}}]
    into one check.  On [{a: "x", b: 2}] the additional-properties check
    run for the key [b] rejects its promise with the
    [#additionalProperties] error; [assertOptimized] drops that promise, so
    the promise of the compiled check is fulfilled, as it is on
    [{a: "x"}], and the error is left as an unhandled rejection. *)
Theorem additional_property_rejection_is_dropped :
  AssertObject.optimize Examples.strings_compiled Examples.closed_a
    Examples.env0
  = (Normal [AssertObject.object_check
               [AssertObject.properties_check Examples.strings_compiled;
                AssertObject.additional_false_check 0] [] (VObj [])],
     mkEnv [false] [])
  /\ AssertObject.additional_false_check 0
       (VArr [Examples.a_x_b_2; VStr "b"; Examples.num 2]) Examples.closed_a
       (mkEnv [false] [])
     = (Normal (VPromise true AssertObject.additional_error),
        mkEnv [false] [])
  /\ AssertObject.object_check
       [AssertObject.properties_check Examples.strings_compiled;
        AssertObject.additional_false_check 0] [] (VObj [])
       Examples.a_x_b_2 Examples.closed_a (mkEnv [false] [])
     = (Normal (VPromise false VUndefined),
        mkEnv [false] [AssertObject.additional_error])
  /\ AssertObject.object_check
       [AssertObject.properties_check Examples.strings_compiled;
        AssertObject.additional_false_check 0] [] (VObj [])
       Examples.a_x Examples.closed_a (mkEnv [false] [])
     = (Normal (VPromise false VUndefined), mkEnv [false] []).
Proof. repeat split. Qed.

(* ------------------------------------------------------------------ *)
(** ** What does propagate *)

(** A size-threshold check throws, so it stops [assertOptimized] and the
    checks after it are not called: on a count of 2 with
    [{maxProperties: 1, minProperties: 5}] the error is the one of
    [maxProperties]. *)
Lemma assertOptimized_first_throw_witness :
  Types.assertOptimized (AssertObject.results 2 0)
    (VObj [("maxProperties", Examples.num 1);
           ("minProperties", Examples.num 5)])
    (Some ([] ++ Types.sizeMax_check "maxProperties"
              :: [Types.sizeMin_check "minProperties"]))
    Examples.env0
  = (Throw (VError Error "#maxProperties: value maximum exceeded" None),
     Examples.env0).
Proof.
  apply (assertOptimized_first_throw [] [Types.sizeMin_check "minProperties"]
           (Types.sizeMax_check "maxProperties")
           (AssertObject.results 2 0) _ _
           Examples.env0 Examples.env0 Examples.env0);
    reflexivity.
Defined.

Lemma assertOptimized_all_return_witness :
  exists s',
    Types.assertOptimized (Examples.num 4) Examples.minimum5
      (Some [AssertNumber.number_check Types.the_isNumber;
             AssertObject.type_check]) Examples.env0
    = (Normal VUndefined, s').
Proof.
  apply (assertOptimized_all_return
           [AssertNumber.number_check Types.the_isNumber;
            AssertObject.type_check]
           (Examples.num 4) Examples.minimum5 Examples.env0).
  - reflexivity.
  - intros c s' [<- | [<- | []]]; eexists; eexists; reflexivity.
Defined.

(** On a value that is no object the compiled object check rejects its own
    promise with the [#type] error exactly when the node's [type] is
    ["object"], and fulfils it otherwise; no per-key or whole-object check
    runs. *)
Lemma object_check_on_non_object
  (innerList outerList : list CompiledCheck) (req value ref type : JsVal)
  (s : Env) :
  Types.isObject value = false ->
  Js.Get ref "type" = Normal type ->
  AssertObject.object_check innerList outerList req value ref s
  = (Normal (if Js.is_string type "object"
             then VPromise true AssertObject.not_an_object_error
             else VPromise false VUndefined), s).
Proof.
  intros Hv Ht. unfold AssertObject.object_check, Js.async.
  rewrite Hv. cbn [negb]. unfold bind, lift. rewrite Ht.
  destruct (Js.is_string type "object"); reflexivity.
Qed.

Lemma object_check_on_non_object_witness :
  AssertObject.object_check [] [AssertObject.assertReq] (VObj [])
    (VStr "x") Examples.closed_a Examples.env0
  = (Normal (VPromise true AssertObject.not_an_object_error), Examples.env0).
Proof.
  exact (object_check_on_non_object [] [AssertObject.assertReq] (VObj [])
           (VStr "x") Examples.closed_a (VStr "object") Examples.env0
           eq_refl eq_refl).
Defined.

(* ------------------------------------------------------------------ *)
(** ** The number builder: upper bounds, compile-time errors, divisors *)

Section UpperBounds.
Import Types.

Lemma Get_field (props : list (string * JsVal)) (k : string) :
  String.eqb k "__proto__" = false ->
  Js.Get (VObj props) k = Normal (Cases.field props k).
Proof.
  intros Hk. unfold Js.Get, Cases.field. rewrite Hk.
  destruct (Js.own k props); [reflexivity |].
  destruct (Js.mem k Js.ObjectPrototype); reflexivity.
Qed.

Lemma ltb_leb (x y : spec_float) : Num.ltb x y = true -> Num.leb x y = true.
Proof.
  unfold Num.ltb, Num.leb, SFltb, SFleb.
  destruct (SFcompare x y) as [[| |] |]; try discriminate; reflexivity.
Qed.

End UpperBounds.

(** The bound [maximum] is tested first: on a numeric value above a numeric
    [maximum] the compiled number check returns the [#maximum] error,
    whatever the other keywords of the node hold. *)
Theorem maximum_is_reported_first
  (props : list (string * JsVal)) (assertion : Types.Assertion)
  (v M : spec_float) (s : Env) :
  Js.own "maximum" props = Some (VNum M) ->
  Types.apply assertion (VNum v) = true ->
  Num.ltb M v = true ->
  AssertNumber.number_check assertion (VNum v) (VObj props) s
  = (Normal (VError Error "#maximum: value is greater than or equal to "
               (Some (VNum M))), s).
Proof.
  intros Hmax Hv Hlt. unfold AssertNumber.number_check, lift.
  rewrite Hv, (Get_own _ _ _ Hmax), (Get_field props "exclusiveMaximum")
    by reflexivity.
  cbn [negb bindC Types.isNumber].
  change (Js.ge (VNum v) (VNum M)) with (Normal (A := bool) (Num.leb M v)).
  change (Js.gt (VNum v) (VNum M)) with (Normal (A := bool) (Num.ltb M v)).
  rewrite Hlt, (ltb_leb M v Hlt).
  destruct (Js.ToBoolean (Cases.field props "exclusiveMaximum"));
    reflexivity.
Qed.

Lemma maximum_is_reported_first_witness :
  AssertNumber.number_check Types.the_isNumber (Examples.num 7)
    (VObj [("maximum", Examples.num 3); ("minimum", Examples.num 9);
           ("multipleOf", Examples.num 2)]) Examples.env0
  = (Normal (VError Error "#maximum: value is greater than or equal to "
               (Some (Examples.num 3))), Examples.env0).
Proof.
  exact (maximum_is_reported_first
           [("maximum", Examples.num 3); ("minimum", Examples.num 9);
            ("multipleOf", Examples.num 2)]
           Types.the_isNumber (Num.of_Z 7) (Num.of_Z 3) Examples.env0
           eq_refl eq_refl eq_refl).
Defined.

(** With [maximum] the only bound keyword and the exclusivity flag a
    boolean (absent: [false]), the compiled number check returns the
    [#maximum] error on a numeric value [v] exactly when [v > maximum], or
    when [v >= maximum] under a [true] flag, and returns nothing
    otherwise. *)
Theorem maximum_inclusive_or_exclusive
  (props : list (string * JsVal)) (assertion : Types.Assertion)
  (v M : spec_float) (exclusive : bool) (s : Env) :
  Js.own "maximum" props = Some (VNum M) ->
  Cases.flag (Js.own "exclusiveMaximum" props) = Some exclusive ->
  Js.own "minimum" props = None ->
  Js.own "exclusiveMinimum" props = None ->
  Js.own "multipleOf" props = None ->
  Types.apply assertion (VNum v) = true ->
  AssertNumber.number_check assertion (VNum v) (VObj props) s
  = (if (if exclusive then Num.leb M v else Num.ltb M v)
     then Normal (VError Error "#maximum: value is greater than or equal to "
                    (Some (VNum M)))
     else Normal VUndefined, s).
Proof.
  intros Hmax Hflag Hmin Hemin Hmult Hv.
  unfold AssertNumber.number_check, lift.
  rewrite Hv, (Get_own _ _ _ Hmax), (Get_field props "exclusiveMaximum")
    by reflexivity.
  rewrite (Get_absent _ "minimum" Hmin eq_refl),
    (Get_absent _ "exclusiveMinimum" Hemin eq_refl),
    (Get_absent _ "multipleOf" Hmult eq_refl).
  cbn [negb bindC Types.isNumber].
  change (Js.ge (VNum v) (VNum M)) with (Normal (A := bool) (Num.leb M v)).
  change (Js.gt (VNum v) (VNum M)) with (Normal (A := bool) (Num.ltb M v)).
  unfold Cases.field, Cases.flag in *.
  destruct (Js.own "exclusiveMaximum" props) as [x |] eqn:Hx.
  - destruct x; try discriminate. injection Hflag as ->.
    cbn [Js.ToBoolean Types.isNumber bindC].
    destruct exclusive; cbn [bindC].
    + destruct (Num.leb M v) eqn:Hle; cbn [bindC]; [reflexivity |].
      destruct (Num.ltb M v) eqn:Hlt; [| reflexivity].
      apply ltb_leb in Hlt. congruence.
    + destruct (Num.ltb M v); reflexivity.
  - injection Hflag as <-. cbn [Js.mem existsb Js.ObjectPrototype].
    change (Js.mem "exclusiveMaximum" Js.ObjectPrototype) with false.
    cbn [Js.ToBoolean Types.isNumber bindC].
    destruct (Num.ltb M v); reflexivity.
Qed.

Lemma maximum_inclusive_or_exclusive_witness :
  AssertNumber.number_check Types.the_isNumber (Examples.num 5)
    (VObj [("maximum", Examples.num 5)]) Examples.env0
  = (Normal VUndefined, Examples.env0)
  /\ AssertNumber.number_check Types.the_isNumber (Examples.num 5)
       (VObj [("maximum", Examples.num 5); ("exclusiveMaximum", VBool true)])
       Examples.env0
     = (Normal (VError Error "#maximum: value is greater than or equal to "
                  (Some (Examples.num 5))), Examples.env0).
Proof.
  split.
  - exact (maximum_inclusive_or_exclusive [("maximum", Examples.num 5)]
             Types.the_isNumber (Num.of_Z 5) (Num.of_Z 5) false Examples.env0
             eq_refl eq_refl eq_refl eq_refl eq_refl eq_refl).
  - exact (maximum_inclusive_or_exclusive
             [("maximum", Examples.num 5); ("exclusiveMaximum", VBool true)]
             Types.the_isNumber (Num.of_Z 5) (Num.of_Z 5) true Examples.env0
             eq_refl eq_refl eq_refl eq_refl eq_refl eq_refl).
Defined.

(** A numeric [exclusiveMaximum] beside [maximum] passes the compile-time
    test of [maximum] and then acts as a [true] exclusivity flag (unless it
    is zero or NaN): a numeric value equal to [maximum] gets the [#maximum]
    error. *)
Theorem numeric_exclusiveMaximum_acts_as_flag
  (props : list (string * JsVal)) (assertion : Types.Assertion)
  (v M E : spec_float) (s : Env) :
  Js.own "maximum" props = Some (VNum M) ->
  Js.own "exclusiveMaximum" props = Some (VNum E) ->
  Num.truthy E = true ->
  Types.apply assertion (VNum M) = true ->
  Types.apply assertion (VNum v) = true ->
  Num.leb M v = true ->
  AssertNumber.ASSERT_MAX (VNum M) (VNum E) assertion = Normal tt
  /\ AssertNumber.number_check assertion (VNum v) (VObj props) s
     = (Normal (VError Error "#maximum: value is greater than or equal to "
                  (Some (VNum M))), s).
Proof.
  intros Hmax Hex Ht HM Hv Hle. split.
  - unfold AssertNumber.ASSERT_MAX. cbn [Types.isUndefined Types.isNumber].
    rewrite HM. reflexivity.
  - unfold AssertNumber.number_check, lift.
    rewrite Hv, (Get_own _ _ _ Hmax), (Get_own _ _ _ Hex).
    cbn [negb bindC Types.isNumber Js.ToBoolean]. rewrite Ht.
    change (Js.ge (VNum v) (VNum M)) with (Normal (A := bool) (Num.leb M v)).
    rewrite Hle. reflexivity.
Qed.

Lemma numeric_exclusiveMaximum_acts_as_flag_witness :
  AssertNumber.optimize
    (VObj [("maximum", Examples.num 10); ("exclusiveMaximum", Examples.num 20)])
  = Normal [AssertNumber.number_check Types.the_isNumber]
  /\ AssertNumber.number_check Types.the_isNumber (Examples.num 10)
       (VObj [("maximum", Examples.num 10);
              ("exclusiveMaximum", Examples.num 20)]) Examples.env0
     = (Normal (VError Error "#maximum: value is greater than or equal to "
                  (Some (Examples.num 10))), Examples.env0).
Proof.
  split; [reflexivity |].
  exact (proj2 (numeric_exclusiveMaximum_acts_as_flag
    [("maximum", Examples.num 10); ("exclusiveMaximum", Examples.num 20)]
    Types.the_isNumber (Num.of_Z 10) (Num.of_Z 10) (Num.of_Z 20)
    Examples.env0 eq_refl eq_refl eq_refl eq_refl eq_refl eq_refl)).
Defined.

(** A numeric [exclusiveMaximum] standing alone is never tested at compile
    time, not even against [type: "integer"]: the node compiles into the
    combined check, which returns the [#exclusiveMaximum] error on a
    numeric value [v] exactly when [v >= exclusiveMaximum]. *)
Theorem standalone_exclusiveMaximum
  (props : list (string * JsVal)) (type : JsVal) (v E : spec_float)
  (s : Env) :
  Js.Get (VObj props) "type" = Normal type ->
  Js.own "exclusiveMaximum" props = Some (VNum E) ->
  Js.own "maximum" props = None ->
  Js.own "minimum" props = None ->
  Js.own "exclusiveMinimum" props = None ->
  Js.own "multipleOf" props = None ->
  Types.apply (AssertNumber.assertion_of type) (VNum v) = true ->
  AssertNumber.optimize (VObj props)
  = Normal [AssertNumber.number_check (AssertNumber.assertion_of type)]
  /\ AssertNumber.number_check (AssertNumber.assertion_of type) (VNum v)
       (VObj props) s
     = (if Num.leb E v
        then Normal (VError Error
               "#exclusiveMaximum: value is greater than or equal to "
               (Some (VNum E)))
        else Normal VUndefined, s).
Proof.
  intros Htype Hex Hmax Hmin Hemin Hmult Hv.
  pose proof (Get_own _ _ _ Hex) as Gex.
  pose proof (Get_absent _ "maximum" Hmax eq_refl) as Gmax.
  pose proof (Get_absent _ "minimum" Hmin eq_refl) as Gmin.
  pose proof (Get_absent _ "exclusiveMinimum" Hemin eq_refl) as Gemin.
  pose proof (Get_absent _ "multipleOf" Hmult eq_refl) as Gmult.
  split.
  - unfold AssertNumber.optimize.
    rewrite Htype, Gex, Gemin, Gmax, Gmin, Gmult. reflexivity.
  - unfold AssertNumber.number_check, lift.
    rewrite Hv, Gmax, Gex, Gmin, Gemin, Gmult.
    cbn [negb bindC Types.isNumber].
    change (Js.ge (VNum v) (VNum E)) with (Normal (A := bool) (Num.leb E v)).
    cbn [bindC]. destruct (Num.leb E v); reflexivity.
Qed.

(** [{type: "integer", exclusiveMaximum: 5.5}] compiles; 5 passes. *)
Lemma standalone_exclusiveMaximum_witness :
  AssertNumber.optimize
    (VObj [("type", VStr "integer");
           ("exclusiveMaximum", VNum (Num.decimal 11 2))])
  = Normal [AssertNumber.number_check Types.the_isInteger]
  /\ AssertNumber.number_check Types.the_isInteger (Examples.num 5)
       (VObj [("type", VStr "integer");
              ("exclusiveMaximum", VNum (Num.decimal 11 2))]) Examples.env0
     = (Normal VUndefined, Examples.env0).
Proof.
  exact (standalone_exclusiveMaximum
           [("type", VStr "integer");
            ("exclusiveMaximum", VNum (Num.decimal 11 2))]
           (VStr "integer") (Num.of_Z 5) (Num.decimal 11 2) Examples.env0
           eq_refl eq_refl eq_refl eq_refl eq_refl eq_refl eq_refl).
Defined.

(** Compiling a node that sets [maximum] throws a schema-definition error
    when [maximum] fails the numeric test chosen by [type] (for
    [type: "integer"], any number that is not whole), and otherwise when
    [exclusiveMaximum] is set to something that is neither a number nor a
    boolean -- whatever the other keywords hold. *)
Theorem maximum_is_validated_at_compile_time
  (props : list (string * JsVal)) (type maximum : JsVal) :
  Js.Get (VObj props) "type" = Normal type ->
  Js.own "maximum" props = Some maximum ->
  Types.isUndefined maximum = false ->
  (Types.apply (AssertNumber.assertion_of type) maximum = false ->
     AssertNumber.optimize (VObj props)
     = Throw (VError TypeError "#maximum: keyword is not the right type"
                None))
  /\ (forall exclusive,
        Types.apply (AssertNumber.assertion_of type) maximum = true ->
        Js.own "exclusiveMaximum" props = Some exclusive ->
        Types.isUndefined exclusive = false ->
        Types.isNumber exclusive = false ->
        Types.isBoolean exclusive = false ->
        AssertNumber.optimize (VObj props)
        = Throw (VError TypeError
                   "#exclusiveMaximum: keyword is not a boolean" None)).
Proof.
  intros Htype Hmax Hdef. unfold AssertNumber.optimize.
  rewrite Htype, (Get_own _ _ _ Hmax).
  rewrite (Get_field props "exclusiveMaximum"),
    (Get_field props "exclusiveMinimum"), (Get_field props "minimum"),
    (Get_field props "multipleOf") by reflexivity.
  cbn [bindC]. rewrite Hdef. cbn [negb].
  unfold AssertNumber.ASSERT_MAX. split.
  - intros Hbad. rewrite Hbad. reflexivity.
  - intros exclusive Hok Hex Hu Hn Hb. rewrite Hok.
    unfold Cases.field. rewrite Hex, Hu, Hn, Hb. reflexivity.
Qed.

(** [{type: "integer", maximum: 5.5}] does not compile. *)
Lemma maximum_is_validated_at_compile_time_witness :
  AssertNumber.optimize
    (VObj [("type", VStr "integer"); ("maximum", VNum (Num.decimal 11 2))])
  = Throw (VError TypeError "#maximum: keyword is not the right type" None).
Proof.
  exact (proj1 (maximum_is_validated_at_compile_time
           [("type", VStr "integer"); ("maximum", VNum (Num.decimal 11 2))]
           (VStr "integer") (VNum (Num.decimal 11 2))
           eq_refl eq_refl eq_refl) eq_refl).
Defined.

Section Divisors.

Lemma not_multiple_of_zero (x : spec_float) (sign : bool) :
  AssertNumber.not_multiple x (S754_zero sign) = true.
Proof. destruct x; reflexivity. Qed.

End Divisors.

(** A [multipleOf] of zero passes the compile-time test and then no number
    is a multiple of it: with no other bound keyword, the compiled check
    returns the [#multipleOf] error on every numeric value. *)
Theorem multipleOf_zero_rejects_every_number
  (props : list (string * JsVal)) (type : JsVal) (v : spec_float)
  (sign : bool) (s : Env) :
  Js.Get (VObj props) "type" = Normal type ->
  Js.own "multipleOf" props = Some (VNum (S754_zero sign)) ->
  Js.own "maximum" props = None ->
  Js.own "exclusiveMaximum" props = None ->
  Js.own "minimum" props = None ->
  Js.own "exclusiveMinimum" props = None ->
  Types.apply (AssertNumber.assertion_of type) (VNum v) = true ->
  AssertNumber.optimize (VObj props)
  = Normal [AssertNumber.number_check (AssertNumber.assertion_of type)]
  /\ AssertNumber.number_check (AssertNumber.assertion_of type) (VNum v)
       (VObj props) s
     = (Normal (VError Error "#multipleOf: value is not a multiple of "
                  (Some (VNum (S754_zero sign)))), s).
Proof.
  intros Htype Hmult Hmax Hemax Hmin Hemin Hv.
  pose proof (Get_own _ _ _ Hmult) as Gmult.
  pose proof (Get_absent _ "maximum" Hmax eq_refl) as Gmax.
  pose proof (Get_absent _ "exclusiveMaximum" Hemax eq_refl) as Gemax.
  pose proof (Get_absent _ "minimum" Hmin eq_refl) as Gmin.
  pose proof (Get_absent _ "exclusiveMinimum" Hemin eq_refl) as Gemin.
  split.
  - unfold AssertNumber.optimize.
    rewrite Htype, Gemax, Gemin, Gmax, Gmin, Gmult.
    cbn [bindC Types.isUndefined negb].
    unfold AssertNumber.ASSERT_MULTIPLE.
    assert (Hz : Types.apply (AssertNumber.assertion_of type)
                   (VNum (S754_zero sign)) = true)
      by (destruct (AssertNumber.assertion_of type); reflexivity).
    rewrite Hz. reflexivity.
  - unfold AssertNumber.number_check, lift.
    rewrite Hv, Gmax, Gemax, Gmin, Gemin, Gmult.
    cbn [negb bindC Types.isNumber].
    rewrite not_multiple_of_zero. reflexivity.
Qed.

Lemma multipleOf_zero_rejects_every_number_witness :
  AssertNumber.optimize (VObj [("multipleOf", Examples.num 0)])
  = Normal [AssertNumber.number_check Types.the_isNumber]
  /\ AssertNumber.number_check Types.the_isNumber (Examples.num 0)
       (VObj [("multipleOf", Examples.num 0)]) Examples.env0
     = (Normal (VError Error "#multipleOf: value is not a multiple of "
                  (Some (Examples.num 0))), Examples.env0).
Proof.
  exact (multipleOf_zero_rejects_every_number
           [("multipleOf", Examples.num 0)] VUndefined (Num.of_Z 0) false
           Examples.env0
           eq_refl eq_refl eq_refl eq_refl eq_refl eq_refl eq_refl).
Defined.

(* ------------------------------------------------------------------ *)
(** ** Counts as doubles: their order *)

Section CountOrder.

Lemma digits2_upper (p : positive) : Zpos p < 2 ^ Zpos (digits2_pos p).
Proof.
  induction p as [p IH | p IH |]; simpl digits2_pos.
  - rewrite Pos2Z.inj_succ, Z.pow_succ_r by lia. lia.
  - rewrite Pos2Z.inj_succ, Z.pow_succ_r by lia. lia.
  - simpl. lia.
Qed.

Lemma normal_shape (p : positive) :
  Zpos p < 2 ^ 53 ->
  exists m, Num.normal p = S754_finite false m (Zpos (digits2_pos p) - 53)
            /\ Zpos m = Zpos p * 2 ^ (53 - Zpos (digits2_pos p)).
Proof.
  intros Hp. apply digits2_bound in Hp. unfold Num.normal.
  destruct (53 - Zpos (digits2_pos p)) as [| k | k] eqn:E; try lia.
  - exists p. replace (Zpos (digits2_pos p) - 53) with 0 by lia.
    split; [reflexivity |]. rewrite Z.pow_0_r. lia.
  - exists (Pos.iter xO p k). split; [reflexivity |]. apply iter_xO_mul.
Qed.

Lemma digits2_mono (p q : positive) :
  Zpos (digits2_pos p) < Zpos (digits2_pos q) -> Zpos p < Zpos q.
Proof.
  intros H. pose proof (digits2_upper p) as Hu.
  pose proof (digits2_lower q) as Hl.
  assert (2 ^ Zpos (digits2_pos p) <= 2 ^ (Zpos (digits2_pos q) - 1))
    by (apply Z.pow_le_mono_r; lia).
  lia.
Qed.

Lemma normal_compare (p q : positive) :
  Zpos p < 2 ^ 53 -> Zpos q < 2 ^ 53 ->
  SFcompare (Num.normal p) (Num.normal q) = Some (Pos.compare p q).
Proof.
  intros Hp Hq.
  destruct (normal_shape p Hp) as (mp & -> & Hmp).
  destruct (normal_shape q Hq) as (mq & -> & Hmq).
  unfold SFcompare. f_equal.
  destruct (Z.compare_spec (Zpos (digits2_pos p) - 53)
              (Zpos (digits2_pos q) - 53)) as [E | L | G].
  - change (Pos.compare_cont Eq mp mq) with (Pos.compare mp mq).
    rewrite !Pos2Z.inj_compare, Hmp, Hmq.
    replace (Zpos (digits2_pos q)) with (Zpos (digits2_pos p)) by lia.
    assert (0 < 2 ^ (53 - Zpos (digits2_pos p))).
    { apply Z.pow_pos_nonneg; [lia |]. apply digits2_bound in Hp. lia. }
    destruct (Z.compare_spec (Zpos p) (Zpos q)) as [C | C | C].
    + rewrite C. apply Z.compare_refl.
    + apply Z.compare_lt_iff. nia.
    + apply Z.compare_gt_iff. nia.
  - symmetry. apply Pos.compare_lt_iff.
    assert (Zpos p < Zpos q) by (apply digits2_mono; lia). lia.
  - symmetry. apply Pos.compare_gt_iff.
    assert (Zpos q < Zpos p) by (apply digits2_mono; lia). lia.
Qed.

Lemma ltb_succ_succ (a b : nat) :
  Z.of_nat (S a) < 2 ^ 53 -> Z.of_nat (S b) < 2 ^ 53 ->
  Num.ltb (Num.of_nat (S a)) (Num.of_nat (S b)) = Nat.ltb a b.
Proof.
  intros Ha Hb.
  rewrite (of_succ_normal a Ha), (of_succ_normal b Hb).
  unfold Num.ltb, SFltb. rewrite normal_compare.
  - destruct (Nat.ltb a b) eqn:L.
    + apply Nat.ltb_lt in L.
      assert (C : Pos.compare (Pos.of_succ_nat a) (Pos.of_succ_nat b) = Lt)
        by (apply Pos.compare_lt_iff; lia).
      rewrite C. reflexivity.
    + apply Nat.ltb_ge in L.
      destruct (Pos.compare_spec (Pos.of_succ_nat a) (Pos.of_succ_nat b));
        try reflexivity. lia.
  - exact Ha.
  - exact Hb.
Qed.

Lemma ltb_zero_succ (b : nat) :
  Z.of_nat (S b) < 2 ^ 53 ->
  Num.ltb (Num.of_nat 0) (Num.of_nat (S b)) = true.
Proof.
  intros Hb. rewrite (of_succ_normal b Hb).
  destruct (normal_finite (Pos.of_succ_nat b)) as (m & e & ->). reflexivity.
Qed.

Lemma ltb_any_zero (a : nat) :
  Z.of_nat a < 2 ^ 53 -> Num.ltb (Num.of_nat a) (Num.of_nat 0) = false.
Proof.
  intros Ha. destruct a as [| a]; [reflexivity |].
  rewrite (of_succ_normal a Ha).
  destruct (normal_finite (Pos.of_succ_nat a)) as (m & e & ->). reflexivity.
Qed.

(** Two counts below 2^53 compare as doubles the way they compare. *)
Lemma of_nat_ltb (a b : nat) :
  Z.of_nat a < 2 ^ 53 -> Z.of_nat b < 2 ^ 53 ->
  Num.ltb (Num.of_nat a) (Num.of_nat b) = Nat.ltb a b.
Proof.
  intros Ha Hb. destruct b as [| b].
  - rewrite ltb_any_zero by exact Ha. symmetry. apply Nat.ltb_ge. lia.
  - destruct a as [| a].
    + rewrite ltb_zero_succ by exact Hb. reflexivity.
    + rewrite ltb_succ_succ by assumption. reflexivity.
Qed.

End CountOrder.

(* ------------------------------------------------------------------ *)
(** ** The object builder: the window of property counts *)

(** With [maxProperties] and [minProperties] both set on the node, the
    compiled object check fulfils its promise exactly for the objects whose
    number of own keys lies between the two thresholds; too many keys is
    reported before too few. *)
Theorem property_count_window
  (vprops rprops : list (string * JsVal)) (lo hi : nat) (s : Env) :
  Js.own "maxProperties" rprops = Some (AssertObject.count hi) ->
  Js.own "minProperties" rprops = Some (AssertObject.count lo) ->
  Z.of_nat hi < 2 ^ 53 ->
  Z.of_nat lo < 2 ^ 53 ->
  Z.of_nat (List.length vprops) < 2 ^ 53 ->
  AssertObject.object_check []
    [Types.sizeMax_check "maxProperties"; Types.sizeMin_check "minProperties"]
    (VObj []) (VObj vprops) (VObj rprops) s
  = (Normal
       (if Nat.ltb hi (List.length vprops)
        then VPromise true
               (Js.mkError "#maxProperties: value maximum exceeded")
        else if Nat.ltb (List.length vprops) lo
        then VPromise true
               (Js.mkError "#minProperties: value minimum not met")
        else VPromise false VUndefined), s).
Proof.
  intros Hmax Hmin Hhi Hlo Hlen.
  unfold AssertObject.object_check, Js.async, bind, lift, ret.
  cbn [Types.isObject negb Js.Object_keys AssertObject.tally
       AssertObject.nonempty].
  unfold AssertObject.tally, bind, lift, ret.
  cbn [AssertObject.nonempty Js.Object_keys Js.keys map].
  unfold Types.assertOptimized, bind, ret.
  cbn [Js.is_false AssertObject.results Types.for_of].
  unfold bind, Types.sizeMax_check, Types.sizeMin_check, lift.
  rewrite (Get_own _ _ _ Hmax), (Get_own _ _ _ Hmin).
  unfold Js.keys. rewrite length_map.
  change (Js.Get (AssertObject.results (List.length vprops) 0) "length")
    with (Normal (AssertObject.count (List.length vprops))).
  unfold AssertObject.count.
  cbn [bindC Js.gt Js.lt Js.ToNumber].
  rewrite (of_nat_ltb hi (List.length vprops) Hhi Hlen).
  rewrite (of_nat_ltb (List.length vprops) lo Hlen Hlo).
  destruct (Nat.ltb hi (List.length vprops)); [reflexivity |].
  destruct (Nat.ltb (List.length vprops) lo); reflexivity.
Qed.

(** [{minProperties: 1, maxProperties: 2}] accepts [{a: 1, b: 2}]. *)
Lemma property_count_window_witness :
  AssertObject.object_check []
    [Types.sizeMax_check "maxProperties"; Types.sizeMin_check "minProperties"]
    (VObj []) Examples.a_1_b_2
    (VObj [("minProperties", AssertObject.count 1);
           ("maxProperties", AssertObject.count 2)]) Examples.env0
  = (Normal (VPromise false VUndefined), Examples.env0).
Proof.
  apply (property_count_window
           [("a", Examples.num 1); ("b", Examples.num 2)]
           [("minProperties", AssertObject.count 1);
            ("maxProperties", AssertObject.count 2)] 1 2 Examples.env0);
    try reflexivity; simpl; lia.
Defined.

(* ------------------------------------------------------------------ *)
(** ** The object builder: companions and boolean sub-schemas *)

Section SubSchemas.
Import Types.

Variable OPTIMIZED : JsVal -> option (list CompiledCheck).

Lemma for_depKeys_defined
  (vprops : list (string * JsVal)) (key : string) (names : list string) :
  ~ In "__proto__" names ->
  AssertObject.for_depKeys (VObj vprops) key (map VStr names)
  = if forallb (Cases.defined vprops) names then Normal VUndefined
    else Throw (AssertObject.missing_dependency key).
Proof.
  induction names as [| name names IH]; intros Hp; [reflexivity |].
  assert (Hname : String.eqb name "__proto__" = false).
  { apply String.eqb_neq. intros ->. apply Hp. now left. }
  cbn [map AssertObject.for_depKeys Js.GetV Js.ToPropertyKey bindC forallb].
  rewrite (Get_field vprops name Hname). cbn [bindC].
  unfold Cases.defined at 1.
  destruct (isUndefined (Cases.field vprops name)); [reflexivity |].
  apply IH. intros H. apply Hp. now right.
Qed.

Lemma validate_boolean (x : JsVal) (b : bool) (s : Env) :
  AssertObject.validate OPTIMIZED x (VBool b) s
  = (if b then Normal VUndefined else Throw Cases.false_schema_error, s).
Proof. destruct b; reflexivity. Qed.

End SubSchemas.

(** The array form of a dependency: when the key at hand has an array of
    names as its entry, the check's promise is fulfilled if the value
    answers every listed name with something other than [undefined] (an
    own property, or a name inherited from [Object.prototype]), and is
    rejected with the [#dependencies] error naming the key otherwise. *)
Theorem array_dependency_needs_defined_companions
  (OPTIMIZED : JsVal -> option (list CompiledCheck))
  (vprops rprops deps : list (string * JsVal)) (key : string)
  (names : list string) (val : JsVal) (s : Env) :
  Js.own "dependencies" rprops = Some (VObj deps) ->
  Js.own key deps = Some (VArr (map VStr names)) ->
  ~ In "__proto__" names ->
  AssertObject.dependencies_check OPTIMIZED
    (VArr [VObj vprops; VStr key; val]) (VObj rprops) s
  = (Normal (if forallb (Cases.defined vprops) names
             then VPromise false VUndefined
             else VPromise true (AssertObject.missing_dependency key)), s).
Proof.
  intros Hdeps Hentry Hp.
  unfold AssertObject.dependencies_check, Js.async, bind, lift.
  cbn [Js.destructure3 nth Js.ToPropertyKey].
  rewrite (Get_own _ _ _ Hdeps), (Get_own _ _ _ Hentry).
  cbn [Types.isUndefined]. rewrite (for_depKeys_defined vprops key names Hp).
  destruct (forallb (Cases.defined vprops) names); reflexivity.
Qed.

(** [{dependencies: {a: ["b", "toString"]}}]: [{a: 1, b: 2}] passes, the
    inherited [toString] counting as defined. *)
Lemma array_dependency_needs_defined_companions_witness :
  AssertObject.dependencies_check Examples.nothing_compiled
    (VArr [Examples.a_1_b_2; VStr "a"; Examples.num 1])
    (VObj [("dependencies",
            VObj [("a", VArr [VStr "b"; VStr "toString"])])]) Examples.env0
  = (Normal (VPromise false VUndefined), Examples.env0).
Proof.
  refine (array_dependency_needs_defined_companions
            Examples.nothing_compiled
            [("a", Examples.num 1); ("b", Examples.num 2)]
            [("dependencies", VObj [("a", VArr [VStr "b"; VStr "toString"])])]
            [("a", VArr [VStr "b"; VStr "toString"])] "a" ["b"; "toString"]
            (Examples.num 1) Examples.env0 eq_refl eq_refl _).
  simpl. intuition discriminate.
Defined.

(** A key for which the [dependencies] mapping answers [undefined] has no
    dependency: the check's promise is fulfilled and nothing of the value
    is read. *)
Theorem key_without_dependency_is_accepted
  (OPTIMIZED : JsVal -> option (list CompiledCheck))
  (rprops deps : list (string * JsVal)) (value val : JsVal) (key : string)
  (s : Env) :
  Js.own "dependencies" rprops = Some (VObj deps) ->
  String.eqb key "__proto__" = false ->
  Cases.defined deps key = false ->
  AssertObject.dependencies_check OPTIMIZED
    (VArr [value; VStr key; val]) (VObj rprops) s
  = (Normal (VPromise false VUndefined), s).
Proof.
  intros Hdeps Hkey Hundef.
  unfold AssertObject.dependencies_check, Js.async, bind, lift.
  cbn [Js.destructure3 nth Js.ToPropertyKey].
  rewrite (Get_own _ _ _ Hdeps), (Get_field deps key Hkey).
  unfold Cases.defined in Hundef. apply negb_false_iff in Hundef.
  rewrite Hundef. reflexivity.
Qed.

Lemma key_without_dependency_is_accepted_witness :
  AssertObject.dependencies_check Examples.nothing_compiled
    (VArr [Examples.b_1; VStr "b"; Examples.num 1])
    (VObj [("dependencies", VObj [("a", VArr [VStr "b"])])]) Examples.env0
  = (Normal (VPromise false VUndefined), Examples.env0).
Proof.
  exact (key_without_dependency_is_accepted Examples.nothing_compiled
           [("dependencies", VObj [("a", VArr [VStr "b"])])]
           [("a", VArr [VStr "b"])] Examples.b_1 (Examples.num 1) "b"
           Examples.env0 eq_refl eq_refl eq_refl).
Defined.

(** Under [properties], a key whose entry is not a mapping is decided
    without looking at the value: the literal [false] refuses it (the
    promise is rejected with the false-schema error) and anything else --
    no entry at all, [true], a name inherited from [Object.prototype], any
    other primitive -- accepts it. *)
Theorem property_without_mapping_schema
  (OPTIMIZED : JsVal -> option (list CompiledCheck))
  (rprops pprops : list (string * JsVal)) (value val : JsVal) (key : string)
  (s : Env) :
  Js.own "properties" rprops = Some (VObj pprops) ->
  String.eqb key "__proto__" = false ->
  Types.isObject (Cases.field pprops key) = false ->
  AssertObject.properties_check OPTIMIZED
    (VArr [value; VStr key; val]) (VObj rprops) s
  = (Normal (Cases.decided (negb (Js.is_false (Cases.field pprops key)))), s).
Proof.
  intros Hprops Hkey Hobj.
  unfold AssertObject.properties_check, Js.async, bind, lift.
  cbn [Js.destructure3 nth Js.ToPropertyKey].
  rewrite (Get_own _ _ _ Hprops), (Get_field pprops key Hkey).
  unfold Types.isSchema. rewrite Hobj.
  destruct (Cases.field pprops key) as [| | b | | | | | | |];
    try reflexivity; try discriminate.
  cbn [orb Types.isBoolean]. rewrite validate_boolean. destruct b; reflexivity.
Qed.

(** [{properties: {a: false}}] refuses the key [a] of [{a: 1}]. *)
Lemma property_without_mapping_schema_witness :
  AssertObject.properties_check Examples.nothing_compiled
    (VArr [Examples.a_1; VStr "a"; Examples.num 1])
    (VObj [("properties", VObj [("a", VBool false)])]) Examples.env0
  = (Normal (VPromise true Cases.false_schema_error), Examples.env0).
Proof.
  exact (property_without_mapping_schema Examples.nothing_compiled
           [("properties", VObj [("a", VBool false)])] [("a", VBool false)]
           Examples.a_1 (Examples.num 1) "a" Examples.env0
           eq_refl eq_refl eq_refl).
Defined.

(** A boolean [propertyNames] compiles, and its check decides every key
    alike: [true] accepts each key, [false] refuses each key with the
    false-schema error. *)
Theorem boolean_propertyNames
  (OPTIMIZED : JsVal -> option (list CompiledCheck))
  (rprops : list (string * JsVal)) (b : bool) (value key val : JsVal)
  (s : Env) :
  Js.own "propertyNames" rprops = Some (VBool b) ->
  AssertObject.ASSERT_KEYS OPTIMIZED (VBool b)
  = Normal (AssertObject.keys_check OPTIMIZED)
  /\ AssertObject.keys_check OPTIMIZED (VArr [value; key; val]) (VObj rprops) s
     = (Normal (Cases.decided b), s).
Proof.
  intros Hnames. split; [reflexivity |].
  unfold AssertObject.keys_check, Js.async, bind, lift.
  cbn [Js.destructure3 nth]. rewrite (Get_own _ _ _ Hnames).
  rewrite validate_boolean. destruct b; reflexivity.
Qed.

Lemma boolean_propertyNames_witness :
  AssertObject.ASSERT_KEYS Examples.nothing_compiled (VBool false)
  = Normal (AssertObject.keys_check Examples.nothing_compiled)
  /\ AssertObject.keys_check Examples.nothing_compiled
       (VArr [Examples.a_1; VStr "a"; Examples.num 1])
       (VObj [("propertyNames", VBool false)]) Examples.env0
     = (Normal (VPromise true Cases.false_schema_error), Examples.env0).
Proof.
  exact (boolean_propertyNames Examples.nothing_compiled
           [("propertyNames", VBool false)] false
           Examples.a_1 (VStr "a") (Examples.num 1) Examples.env0 eq_refl).
Defined.

(* ------------------------------------------------------------------ *)
(** ** The object builder: the shared [patternMatch] variable *)

Section PatternCell.
Import Types.

Variable OPTIMIZED : JsVal -> option (list CompiledCheck).
Variables rprops pats : list (string * JsVal).
Variable loc : nat.
Variable key : string.
Variable val : JsVal.

Hypothesis patterns_held :
  Js.own "patternProperties" rprops = Some (VObj pats).

(** The cached checks of the sub-schemas whose pattern occurs in the key,
    called on the value under that key, leave the variable alone. *)
Hypothesis cached_checks_keep_cell : forall i sub l fn,
  Js.own i pats = Some sub -> Js.occurs false i key = true ->
  OPTIMIZED sub = Some l -> In fn l -> Cases.keeps_cell loc fn val sub.

Lemma update_length (b : bool) (l : list bool) (n : nat) :
  List.length (update n b l) = List.length l.
Proof.
  revert n. induction l as [| x l IH]; intros [| n]; simpl; auto.
Qed.

Lemma update_nth (b : bool) (l : list bool) (n : nat) :
  (n < List.length l)%nat -> nth n (update n b l) false = b.
Proof.
  revert n. induction l as [| x l IH]; intros [| n] H; simpl in *;
    try lia; auto. apply IH. lia.
Qed.

Lemma discard_frame (r : JsVal) (s : Env) : exists s',
  Js.discard r s = (Normal tt, s') /\ cells s' = cells s.
Proof.
  unfold Js.discard. destruct r as [| | | | | | | | | [|] ?];
    eexists; split; reflexivity.
Qed.

Lemma for_of_frame (l : list CompiledCheck) (sub : JsVal) :
  (forall fn, In fn l -> Cases.keeps_cell loc fn val sub) ->
  forall s, exists c s',
    for_of l val sub s = (c, s')
    /\ (c = Normal tt \/ exists e, c = Throw e)
    /\ List.length (cells s') = List.length (cells s)
    /\ nth loc (cells s') false = nth loc (cells s) false.
Proof.
  induction l as [| fn l IH]; intros Hl s.
  - exists (Normal tt), s. repeat split; auto.
  - cbn [for_of]. unfold bind at 1.
    destruct (Hl fn (or_introl eq_refl) s)
      as (c & s1 & -> & Hc & Hlen1 & Hnth1).
    destruct c as [r | e |]; [| | congruence].
    + unfold bind at 1.
      destruct (discard_frame r s1) as (s2 & -> & Hs2).
      destruct (IH (fun fn' H => Hl fn' (or_intror H)) s2)
        as (c & s' & -> & Hc' & Hlen & Hnth).
      exists c, s'. rewrite Hs2 in Hlen, Hnth.
      repeat split; [assumption | congruence | congruence].
    + exists (Throw e), s1. repeat split; eauto.
Qed.

Lemma validate_frame (i : string) (sub : JsVal) (s : Env) :
  Js.own i pats = Some sub -> Js.occurs false i key = true ->
  exists c s',
    AssertObject.validate OPTIMIZED val sub s = (c, s')
    /\ (c = Normal VUndefined \/ exists e, c = Throw e)
    /\ List.length (cells s') = List.length (cells s)
    /\ nth loc (cells s') false = nth loc (cells s) false.
Proof.
  intros Hsub Hhit. unfold AssertObject.validate, bind at 1, lift.
  assert (Hg : (exists e, AssertObject.GetOptimized OPTIMIZED sub = Throw e)
               \/ AssertObject.GetOptimized OPTIMIZED sub = Normal None
               \/ AssertObject.GetOptimized OPTIMIZED sub
                  = Normal (OPTIMIZED sub)).
  { destruct sub; simpl; eauto. }
  assert (Hrun : forall opt,
    opt = None \/ opt = OPTIMIZED sub ->
    exists c s', assertOptimized val sub opt s = (c, s')
                 /\ (c = Normal VUndefined \/ exists e, c = Throw e)
                 /\ List.length (cells s') = List.length (cells s)
                 /\ nth loc (cells s') false = nth loc (cells s) false).
  { intros opt Hopt. unfold assertOptimized.
    destruct (Js.is_false sub).
    - exists (Throw (Js.mkError "'false' Schema invalidates all values")), s.
      repeat split; eauto.
    - unfold bind.
      assert (Hl : forall fn,
        In fn (match opt with Some l => l | None => [] end) ->
        Cases.keeps_cell loc fn val sub).
      { destruct opt as [l |] eqn:E; [| intros fn []].
        destruct Hopt as [Hopt | Hopt]; [discriminate |].
        intros fn Hfn.
        exact (cached_checks_keep_cell i sub l fn Hsub Hhit
                 (eq_sym Hopt) Hfn). }
      destruct (for_of_frame _ sub Hl s)
        as (c & s' & -> & Hc & Hlen & Hnth).
      destruct Hc as [-> | [e ->]].
      + exists (Normal VUndefined), s'. repeat split; auto.
      + exists (Throw e), s'. repeat split; eauto. }
  destruct Hg as [[e ->] | [-> | ->]].
  - exists (Throw e), s. repeat split; eauto.
  - apply Hrun. now left.
  - apply Hrun. now right.
Qed.

Lemma for_patterns_spec (ks : list string) :
  incl ks (Js.keys pats) ->
  forallb Js.literal ks = true ->
  forall s, (loc < List.length (cells s))%nat ->
  exists c s',
    AssertObject.for_patterns OPTIMIZED loc ks key val (VObj rprops) s
    = (c, s')
    /\ (c = Normal tt \/ exists e, c = Throw e)
    /\ List.length (cells s') = List.length (cells s)
    /\ nth loc (cells s') false
       = nth loc (cells s) false || Cases.matched ks key.
Proof.
  induction ks as [| i ks IH]; intros Hin Hlit s Hloc.
  - exists (Normal tt), s. repeat split; [now left |].
    simpl. now rewrite orb_false_r.
  - cbn [forallb] in Hlit. apply andb_prop in Hlit as [Hi Hlit].
    assert (Hin' : incl ks (Js.keys pats))
      by (intros k' Hk'; apply Hin; now right).
    cbn [AssertObject.for_patterns Cases.matched existsb].
    unfold bind at 1, lift at 1, Js.RegExp_test. rewrite Hi.
    destruct (Js.occurs false i key) eqn:Hhit.
    + unfold bind at 1, bind at 1, write_cell at 1.
      unfold bind at 1, lift at 1. rewrite (Get_own _ _ _ patterns_held).
      unfold bind at 1, lift at 1.
      destruct (proj1 (own_keys pats i) (Hin i (or_introl eq_refl)))
        as [sub Hsub].
      rewrite (Get_own _ _ _ Hsub).
      unfold bind at 1.
      destruct (validate_frame i sub
                  (mkEnv (update loc true (cells s)) (unhandled s))
                  Hsub Hhit)
        as (c & s1 & -> & Hc & Hlen1 & Hnth1).
      cbn [cells] in Hlen1, Hnth1.
      rewrite update_length in Hlen1.
      rewrite update_nth in Hnth1 by exact Hloc.
      destruct Hc as [-> | [e ->]].
      * unfold bind at 1, Js.await, ret at 1. unfold ret at 1.
        assert (Hloc1 : (loc < List.length (cells s1))%nat) by lia.
        destruct (IH Hin' Hlit s1 Hloc1) as (c & s' & -> & Hc & Hlen & Hnth).
        exists c, s'. repeat split; [assumption | congruence |].
        rewrite Hnth, Hnth1. cbn [orb]. now rewrite orb_true_r.
      * exists (Throw e), s1. repeat split; [eauto | assumption |].
        rewrite Hnth1. now rewrite orb_true_r.
    + unfold bind at 1, ret at 1.
      destruct (IH Hin' Hlit s Hloc) as (c & s' & -> & Hc & Hlen & Hnth).
      exists c, s'. repeat split; assumption.
Qed.

Lemma pattern_check_sets_cell (value : JsVal) (s : Env) :
  forallb Js.literal (Js.keys pats) = true ->
  (loc < List.length (cells s))%nat ->
  exists p s',
    AssertObject.pattern_check OPTIMIZED loc (Js.keys pats)
      (VArr [value; VStr key; val]) (VObj rprops) s
    = (Normal p, s')
    /\ List.length (cells s') = List.length (cells s)
    /\ nth loc (cells s') false = Cases.matched (Js.keys pats) key.
Proof.
  intros Hlit Hloc.
  unfold AssertObject.pattern_check, Js.async.
  unfold bind at 1, lift at 1. cbn [Js.destructure3 nth].
  unfold bind at 1, write_cell at 1.
  unfold bind at 1, lift at 1. cbn [Js.ToPropertyKey].
  unfold bind at 1.
  assert (Hloc0 : (loc < List.length
            (cells (mkEnv (update loc false (cells s)) (unhandled s))))%nat)
    by (cbn [cells]; rewrite update_length; exact Hloc).
  destruct (for_patterns_spec (Js.keys pats) (fun k H => H) Hlit _ Hloc0)
    as (c & s' & -> & Hc & Hlen & Hnth).
  cbn [cells] in Hlen, Hnth.
  rewrite update_length in Hlen. rewrite update_nth in Hnth by exact Hloc.
  destruct Hc as [-> | [e ->]]; eexists; exists s'; unfold ret;
    (split; [reflexivity | split; assumption]).
Qed.

End PatternCell.

(** The pattern check and the closed-object check share one variable.  On
    a node holding [patternProperties] (patterns made of letters, digits
    and underscores) and [properties] (a mapping, or none), run the pattern
    check and then the [additionalProperties: false] check on a key, where
    the cached checks of the sub-schemas whose pattern occurs in the key,
    called on the value under that key, run to an end and leave that
    variable alone: the second check's promise is rejected with the
    [#additionalProperties] error exactly when the key has no truthy entry
    under [properties] and no pattern occurs in it. *)
Theorem additional_iff_unnamed_and_unmatched
  (OPTIMIZED : JsVal -> option (list CompiledCheck))
  (rprops pats : list (string * JsVal)) (loc : nat) (key : string)
  (value val : JsVal) (s : Env) :
  (forall i sub l fn,
     Js.own i pats = Some sub -> Js.occurs false i key = true ->
     OPTIMIZED sub = Some l -> In fn l ->
     Cases.keeps_cell loc fn val sub) ->
  Js.own "patternProperties" rprops = Some (VObj pats) ->
  forallb Js.literal (Js.keys pats) = true ->
  Types.isObject (Cases.field rprops "properties")
  || Types.isUndefined (Cases.field rprops "properties") = true ->
  String.eqb key "__proto__" = false ->
  (loc < List.length (cells s))%nat ->
  exists p s',
    AssertObject.pattern_check OPTIMIZED loc (Js.keys pats)
      (VArr [value; VStr key; val]) (VObj rprops) s
    = (Normal p, s')
    /\ AssertObject.additional_false_check loc
         (VArr [value; VStr key; val]) (VObj rprops) s'
       = (Normal (if Cases.named rprops key
                     || Cases.matched (Js.keys pats) key
                  then VPromise false VUndefined
                  else VPromise true AssertObject.additional_error), s').
Proof.
  intros Hcache Hpats Hlit Hprops Hkey Hloc.
  destruct (pattern_check_sets_cell OPTIMIZED rprops pats loc key val
              Hpats Hcache value s Hlit Hloc) as (p & s' & Hrun & Hlen & Hnth).
  exists p, s'. split; [exact Hrun |].
  unfold AssertObject.additional_false_check, Js.async.
  unfold bind at 1, lift at 1. cbn [Js.destructure3 nth].
  unfold AssertObject.is_additional, Cases.named.
  unfold bind at 2, lift at 1.
  rewrite (Get_field rprops "properties") by reflexivity.
  destruct (Cases.field rprops "properties") as [| | | | | | pprops | | |];
    try discriminate.
  - cbn [Js.ToBoolean orb]. unfold bind, ret, read_cell. rewrite Hnth.
    destruct (Cases.matched (Js.keys pats) key); reflexivity.
  - cbn [Js.ToBoolean]. unfold bind, lift, ret, read_cell.
    cbn [Js.ToPropertyKey]. rewrite (Get_field pprops key Hkey).
    destruct (Js.ToBoolean (Cases.field pprops key)); cbv beta iota;
      [reflexivity |].
    rewrite Hnth.
    destruct (Cases.matched (Js.keys pats) key); reflexivity.
Qed.

(** [{patternProperties: {a: {type: "string"}},
      additionalProperties: false}], with the string check cached on the
    sub-schema: on [{ab: 1}] the pattern occurs in the key [ab], the cached
    check runs on 1, and the key is not additional; on [{b: 1}] no pattern
    occurs and the key [b] is additional. *)
Lemma additional_iff_unnamed_and_unmatched_witness :
  (exists p s',
     AssertObject.pattern_check Examples.strings_compiled 0 ["a"]
       (VArr [VObj [("ab", Examples.num 1)]; VStr "ab"; Examples.num 1])
       (VObj [("patternProperties", VObj [("a", Examples.string_node)]);
              ("additionalProperties", VBool false)]) (mkEnv [false] [])
     = (Normal p, s')
     /\ AssertObject.additional_false_check 0
          (VArr [VObj [("ab", Examples.num 1)]; VStr "ab"; Examples.num 1])
          (VObj [("patternProperties", VObj [("a", Examples.string_node)]);
                 ("additionalProperties", VBool false)]) s'
        = (Normal (VPromise false VUndefined), s'))
  /\ exists p s',
       AssertObject.pattern_check Examples.strings_compiled 0 ["a"]
         (VArr [Examples.b_1; VStr "b"; Examples.num 1])
         (VObj [("patternProperties", VObj [("a", Examples.string_node)]);
                ("additionalProperties", VBool false)]) (mkEnv [false] [])
       = (Normal p, s')
       /\ AssertObject.additional_false_check 0
            (VArr [Examples.b_1; VStr "b"; Examples.num 1])
            (VObj [("patternProperties", VObj [("a", Examples.string_node)]);
                   ("additionalProperties", VBool false)]) s'
          = (Normal (VPromise true AssertObject.additional_error), s').
Proof.
  assert (Hcache : forall key i sub l fn,
    Js.own i [("a", Examples.string_node)] = Some sub ->
    Js.occurs false i key = true ->
    Examples.strings_compiled sub = Some l -> In fn l ->
    Cases.keeps_cell 0 fn (Examples.num 1) sub).
  { intros key i sub l fn Hsub _ Hl Hfn s. cbn [Js.own] in Hsub.
    destruct (String.eqb i "a"); [| discriminate Hsub].
    injection Hsub as <-. injection Hl as <-.
    destruct Hfn as [<- | []].
    eexists. exists s. split; [reflexivity |].
    split; [discriminate | split; reflexivity]. }
  split.
  - refine (additional_iff_unnamed_and_unmatched Examples.strings_compiled
              [("patternProperties", VObj [("a", Examples.string_node)]);
               ("additionalProperties", VBool false)]
              [("a", Examples.string_node)] 0 "ab"
              (VObj [("ab", Examples.num 1)]) (Examples.num 1)
              (mkEnv [false] []) (Hcache "ab")
              eq_refl eq_refl eq_refl eq_refl _).
    simpl. lia.
  - refine (additional_iff_unnamed_and_unmatched Examples.strings_compiled
              [("patternProperties", VObj [("a", Examples.string_node)]);
               ("additionalProperties", VBool false)]
              [("a", Examples.string_node)] 0 "b" Examples.b_1
              (Examples.num 1) (mkEnv [false] []) (Hcache "b")
              eq_refl eq_refl eq_refl eq_refl _).
    simpl. lia.
Defined.


(* ------------------------------------------------------------------ *)
(** ** The object builder: what compiles *)

Section Compiling.
Import Types.

Variable OPTIMIZED : JsVal -> option (list CompiledCheck).

Lemma undefined_field (props : list (string * JsVal)) (k : string) :
  isUndefined (Cases.field props k) = true -> Cases.field props k = VUndefined.
Proof. destruct (Cases.field props k); try discriminate. reflexivity. Qed.

(** What [AssertObject[ASSERT_PROPERTIES]] does with a node that holds no
    [patternProperties] and whose [properties] is a mapping or is not
    set. *)
Lemma ASSERT_PROPERTIES_without_patterns
  (props : list (string * JsVal)) (s : Env) :
  isObject (Cases.field props "properties")
  || isUndefined (Cases.field props "properties") = true ->
  isUndefined (Cases.field props "patternProperties") = true ->
  AssertObject.ASSERT_PROPERTIES OPTIMIZED (VObj props) s
  = (let list1 := if isObject (Cases.field props "properties")
                  then [AssertObject.properties_check OPTIMIZED] else [] in
     let additional := Cases.field props "additionalProperties" in
     let loc := List.length (cells s) in
     if isObject additional
     then Normal (list1 ++ [AssertObject.additional_schema_check OPTIMIZED
                              loc])
     else if Js.is_false additional
     then Normal (list1 ++ [AssertObject.additional_false_check loc])
     else if isUndefined additional then Normal list1
     else Throw (Js.mkTypeError
            "#additionalProperties: must be either a Schema or Boolean"),
     mkEnv (cells s ++ [false]) (unhandled s)).
Proof.
  intros Hprops Hpat. apply undefined_field in Hpat.
  unfold AssertObject.ASSERT_PROPERTIES.
  unfold bind at 1, lift at 1.
  rewrite (Get_field props "properties") by reflexivity.
  unfold bind at 1, lift at 1.
  rewrite (Get_field props "patternProperties") by reflexivity.
  unfold bind at 1, lift at 1.
  rewrite (Get_field props "additionalProperties") by reflexivity.
  unfold bind at 1, alloc_cell at 1. rewrite Hpat.
  destruct (Cases.field props "properties") as [| | | | | | pprops | | |];
    try discriminate;
    destruct (Cases.field props "additionalProperties")
      as [| | [|] | | | | aprops | | |]; reflexivity.
Qed.

End Compiling.

(** [additionalProperties: true] is not accepted.  On a node that holds it
    (with [properties] a mapping or not set, and no [patternProperties]),
    [AssertObject[ASSERT_PROPERTIES]] throws the TypeError
    [#additionalProperties: must be either a Schema or Boolean], and so
    does [AssertObject.optimize], whatever the other keywords hold. *)
Theorem additionalProperties_true_does_not_compile
  (OPTIMIZED : JsVal -> option (list CompiledCheck))
  (props : list (string * JsVal)) (s : Env) :
  Js.own "additionalProperties" props = Some (VBool true) ->
  Types.isObject (Cases.field props "properties")
  || Types.isUndefined (Cases.field props "properties") = true ->
  Types.isUndefined (Cases.field props "patternProperties") = true ->
  AssertObject.ASSERT_PROPERTIES OPTIMIZED (VObj props) s
  = (Throw (Js.mkTypeError
       "#additionalProperties: must be either a Schema or Boolean"),
     mkEnv (cells s ++ [false]) (unhandled s))
  /\ AssertObject.optimize OPTIMIZED (VObj props) s
     = (Throw (Js.mkTypeError
          "#additionalProperties: must be either a Schema or Boolean"),
        mkEnv (cells s ++ [false]) (unhandled s)).
Proof.
  intros Hadd Hprops Hpat.
  assert (Hrun : AssertObject.ASSERT_PROPERTIES OPTIMIZED (VObj props) s
    = (Throw (Js.mkTypeError
         "#additionalProperties: must be either a Schema or Boolean"),
       mkEnv (cells s ++ [false]) (unhandled s))).
  { rewrite (ASSERT_PROPERTIES_without_patterns OPTIMIZED props s Hprops Hpat).
    assert (Hf : Cases.field props "additionalProperties" = VBool true)
      by (unfold Cases.field; now rewrite Hadd).
    rewrite Hf. reflexivity. }
  split; [exact Hrun |].
  unfold AssertObject.optimize.
  unfold bind at 1, lift at 1.
  rewrite (Get_field props "type") by reflexivity.
  unfold bind at 1, lift at 1.
  rewrite (Get_field props "dependencies") by reflexivity.
  unfold bind at 1, lift at 1.
  rewrite (Get_field props "maxProperties") by reflexivity.
  unfold bind at 1, lift at 1.
  rewrite (Get_field props "minProperties") by reflexivity.
  unfold bind at 1, lift at 1.
  rewrite (Get_field props "propertyNames") by reflexivity.
  unfold bind at 1, lift at 1.
  rewrite (Get_field props "required") by reflexivity.
  unfold bind at 1. rewrite Hrun. reflexivity.
Qed.

(** [{type: "object", additionalProperties: true}] does not compile. *)
Lemma additionalProperties_true_does_not_compile_witness :
  AssertObject.ASSERT_PROPERTIES Examples.nothing_compiled
    (VObj [("type", VStr "object"); ("additionalProperties", VBool true)])
    Examples.env0
  = (Throw (Js.mkTypeError
       "#additionalProperties: must be either a Schema or Boolean"),
     mkEnv [false] [])
  /\ AssertObject.optimize Examples.nothing_compiled
       (VObj [("type", VStr "object"); ("additionalProperties", VBool true)])
       Examples.env0
     = (Throw (Js.mkTypeError
          "#additionalProperties: must be either a Schema or Boolean"),
        mkEnv [false] []).
Proof.
  exact (additionalProperties_true_does_not_compile Examples.nothing_compiled
           [("type", VStr "object"); ("additionalProperties", VBool true)]
           Examples.env0 eq_refl eq_refl eq_refl).
Defined.

(** A node that sets none of the object keywords compiles into the
    type-only check when its [type] is ["object"], and into no check at all
    otherwise; the type-only check rejects its promise exactly on the
    values that are not objects. *)
Theorem object_node_without_keywords
  (OPTIMIZED : JsVal -> option (list CompiledCheck))
  (props : list (string * JsVal)) (s : Env) :
  forallb (fun k => Types.isUndefined (Cases.field props k))
    ["properties"; "patternProperties"; "additionalProperties";
     "dependencies"; "propertyNames"; "required";
     "maxProperties"; "minProperties"] = true ->
  AssertObject.optimize OPTIMIZED (VObj props) s
  = (Normal (if Js.is_string (Cases.field props "type") "object"
             then [AssertObject.type_check] else []),
     mkEnv (cells s ++ [false]) (unhandled s))
  /\ forall value ref s',
       AssertObject.type_check value ref s'
       = (Normal (if Types.isObject value then VPromise false VUndefined
                  else VPromise true AssertObject.not_an_object_error), s').
Proof.
  intros Hnone. cbn [forallb] in Hnone.
  repeat (apply andb_prop in Hnone as [?H Hnone]).
  repeat match goal with
         | H : Types.isUndefined (Cases.field _ _) = true |- _ =>
             apply undefined_field in H
         end.
  split.
  - unfold AssertObject.optimize.
    unfold bind at 1, lift at 1.
    rewrite (Get_field props "type") by reflexivity.
    unfold bind at 1, lift at 1.
    rewrite (Get_field props "dependencies") by reflexivity.
    unfold bind at 1, lift at 1.
    rewrite (Get_field props "maxProperties") by reflexivity.
    unfold bind at 1, lift at 1.
    rewrite (Get_field props "minProperties") by reflexivity.
    unfold bind at 1, lift at 1.
    rewrite (Get_field props "propertyNames") by reflexivity.
    unfold bind at 1, lift at 1.
    rewrite (Get_field props "required") by reflexivity.
    unfold bind at 1.
    rewrite (ASSERT_PROPERTIES_without_patterns OPTIMIZED props s).
    + repeat match goal with
             | H : Cases.field _ _ = VUndefined |- _ => rewrite H; clear H
             end.
      cbn. destruct (Js.is_string (Cases.field props "type") "object");
        reflexivity.
    + match goal with
      | H : Cases.field props "properties" = _ |- _ => rewrite H
      end. reflexivity.
    + match goal with
      | H : Cases.field props "patternProperties" = _ |- _ => rewrite H
      end. reflexivity.
  - intros value ref s'. unfold AssertObject.type_check, Js.async.
    destruct (Types.isObject value); reflexivity.
Qed.

(** [{type: "object"}] compiles into the type-only check. *)
Lemma object_node_without_keywords_witness :
  AssertObject.optimize Examples.nothing_compiled
    (VObj [("type", VStr "object")]) Examples.env0
  = (Normal [AssertObject.type_check], mkEnv [false] [])
  /\ forall value ref s',
       AssertObject.type_check value ref s'
       = (Normal (if Types.isObject value then VPromise false VUndefined
                  else VPromise true AssertObject.not_an_object_error), s').
Proof.
  exact (object_node_without_keywords Examples.nothing_compiled
           [("type", VStr "object")] Examples.env0 eq_refl).
Defined.

(* ------------------------------------------------------------------ *)
(** ** The number builder: nodes without bounds, returned errors *)

(** A node with no numeric bound keyword ([maximum], [minimum] and
    [multipleOf] not set, the two exclusive bounds not numbers) whose
    [type] is one of the seven type names compiles into the type-only check
    for ["integer"] and ["number"], and into no check at all for the other
    five; the type-only check returns the [#type] error exactly on the
    values that fail the numeric test. *)
Theorem number_node_without_bounds
  (props : list (string * JsVal)) (t : string) :
  Js.own "type" props = Some (VStr t) ->
  In t ["integer"; "number"; "string"; "object"; "array"; "boolean"; "null"] ->
  forallb (fun k => Types.isUndefined (Cases.field props k))
    ["maximum"; "minimum"; "multipleOf"] = true ->
  Types.isNumber (Cases.field props "exclusiveMaximum") = false ->
  Types.isNumber (Cases.field props "exclusiveMinimum") = false ->
  AssertNumber.optimize (VObj props)
  = Normal (if String.eqb t "integer"
            then [AssertNumber.type_check Types.the_isInteger]
            else if String.eqb t "number"
            then [AssertNumber.type_check Types.the_isNumber]
            else [])
  /\ forall assertion value s,
       AssertNumber.type_check assertion value (VObj props) s
       = (Normal (if Types.apply assertion value then VUndefined
                  else VError Error "#type: value is not a(n) "
                         (Some (VStr t))), s).
Proof.
  intros Htype Ht Hnone Hemax Hemin. cbn [forallb] in Hnone.
  repeat (apply andb_prop in Hnone as [?H Hnone]).
  repeat match goal with
         | H : Types.isUndefined (Cases.field _ _) = true |- _ =>
             apply undefined_field in H
         end.
  split.
  - unfold AssertNumber.optimize.
    rewrite (Get_own _ _ _ Htype).
    rewrite (Get_field props "exclusiveMaximum"),
      (Get_field props "exclusiveMinimum"), (Get_field props "maximum"),
      (Get_field props "minimum"), (Get_field props "multipleOf")
      by reflexivity.
    repeat match goal with
           | H : Cases.field _ _ = VUndefined |- _ => rewrite H; clear H
           end.
    cbn [bindC Types.isUndefined negb Types.isNumber orb].
    rewrite Hemax, Hemin. cbn [orb].
    cbn in Ht.
    repeat (destruct Ht as [<- | Ht]; [reflexivity |]). contradiction.
  - intros assertion value s. unfold AssertNumber.type_check, lift.
    rewrite (Get_own _ _ _ Htype).
    destruct (Types.apply assertion value); reflexivity.
Qed.

(** [{type: "integer"}] compiles into the type-only check with the integer
    test, which returns the [#type] error on 1.5. *)
Lemma number_node_without_bounds_witness :
  AssertNumber.optimize (VObj [("type", VStr "integer")])
  = Normal [AssertNumber.type_check Types.the_isInteger]
  /\ AssertNumber.type_check Types.the_isInteger (VNum (Num.decimal 3 2))
       (VObj [("type", VStr "integer")]) Examples.env0
     = (Normal (VError Error "#type: value is not a(n) "
                  (Some (VStr "integer"))), Examples.env0).
Proof.
  refine (let H := number_node_without_bounds [("type", VStr "integer")]
                     "integer" eq_refl _ eq_refl eq_refl eq_refl in
          conj (proj1 H)
            (proj2 H Types.the_isInteger (VNum (Num.decimal 3 2))
               Examples.env0)).
  simpl. auto.
Defined.

Section NeverThrows.
Import Types.

Lemma isNumber_inv (v : JsVal) : isNumber v = true -> exists x, v = VNum x.
Proof. destruct v; try discriminate. eauto. Qed.

Lemma apply_number (assertion : Assertion) (v : JsVal) :
  apply assertion v = true -> exists x, v = VNum x.
Proof.
  destruct assertion; destruct v; try discriminate; eauto.
Qed.

End NeverThrows.

(** The combined number check never throws and never touches the store.
    On a value that passes the numeric test it returns either nothing or
    an [Error] object, whatever the node's keywords hold. *)
Theorem number_check_only_returns
  (assertion : Types.Assertion) (value : JsVal)
  (props : list (string * JsVal)) (s : Env) :
  Types.apply assertion value = true ->
  exists r,
    AssertNumber.number_check assertion value (VObj props) s = (Normal r, s)
    /\ (r = VUndefined \/ exists message bound,
                           r = VError Error message (Some (VNum bound))).
Proof.
  intros Hv. destruct (apply_number assertion value Hv) as [x ->].
  unfold AssertNumber.number_check, lift. rewrite Hv.
  rewrite (Get_field props "maximum"), (Get_field props "exclusiveMaximum"),
    (Get_field props "minimum"), (Get_field props "exclusiveMinimum"),
    (Get_field props "multipleOf") by reflexivity.
  cbn [negb bindC].
  generalize (Cases.field props "maximum") as maximum.
  generalize (Cases.field props "exclusiveMaximum") as exclusiveMaximum.
  generalize (Cases.field props "minimum") as minimum.
  generalize (Cases.field props "exclusiveMinimum") as exclusiveMinimum.
  generalize (Cases.field props "multipleOf") as multipleOf.
  intros multipleOf exclusiveMinimum minimum exclusiveMaximum maximum.
  assert (Hlast : exists r,
    (match multipleOf with
     | VNum m =>
         if AssertNumber.not_multiple x m
         then Normal (VError Error "#multipleOf: value is not a multiple of "
                        (Some multipleOf))
         else Normal VUndefined
     | _ => Normal VUndefined
     end) = Normal r
    /\ (r = VUndefined \/ exists message bound,
                           r = VError Error message (Some (VNum bound)))).
  { destruct multipleOf as [| | | m | | | | | |]; eauto.
    destruct (AssertNumber.not_multiple x m); eauto 6. }
  destruct Hlast as (r4 & H4 & Hr4).
  destruct (Types.isNumber maximum) eqn:HM;
    [apply isNumber_inv in HM as [M ->] |];
    (destruct (Types.isNumber exclusiveMaximum) eqn:HEM;
     [apply isNumber_inv in HEM as [EM ->] |]);
    (destruct (Types.isNumber minimum) eqn:Hm;
     [apply isNumber_inv in Hm as [m ->] |]);
    (destruct (Types.isNumber exclusiveMinimum) eqn:HEm;
     [apply isNumber_inv in HEm as [Em ->] |]);
    cbn [Js.ToBoolean Js.ge Js.gt Js.le Js.lt Js.ToNumber bindC Types.isNumber];
    repeat match goal with
           | |- context [if ?c then _ else _] =>
               destruct c; cbn [bindC]
           end;
    try (rewrite H4; exists r4; split; [reflexivity | exact Hr4]);
    eauto 6.
Qed.

(** [{type: "number", minimum: 5}] on 7. *)
Lemma number_check_only_returns_witness :
  exists r,
    AssertNumber.number_check Types.the_isNumber (Examples.num 7)
      Examples.minimum5 Examples.env0 = (Normal r, Examples.env0)
    /\ (r = VUndefined \/ exists message bound,
                           r = VError Error message (Some (VNum bound))).
Proof.
  exact (number_check_only_returns Types.the_isNumber (Examples.num 7)
           [("type", VStr "number"); ("minimum", Examples.num 5)]
           Examples.env0 eq_refl).
Defined.

Section RequiredNames.
Import Types.

Lemma reduce_returns (items : list JsVal) :
  Forall (fun i => exists s, i = VStr s) items ->
  forall acc, exists req, AssertObject.reduce items acc = Normal req.
Proof.
  induction 1 as [| i items [name ->] _ IH]; intros acc; cbn.
  - eauto.
  - destruct (String.eqb name "__proto__"); [apply IH |].
    destruct (Js.own name acc); apply IH.
Qed.

End RequiredNames.

(** [required] is accepted at compile time exactly when it is not set or
    is an array of strings (empty or not): then
    [AssertObject[ASSERT_REQUIRED]] returns a lookup set, and otherwise it
    throws the [#required] TypeError. *)
Theorem required_compile_error_iff (required : JsVal) :
  (AssertObject.ASSERT_REQUIRED required
   = Throw (Js.mkTypeError
       "#required: required properties must be defined in an array of strings")
   <-> ~ (required = VUndefined \/ Spec.array_of_strings required))
  /\ (required = VUndefined \/ Spec.array_of_strings required ->
      exists req assertReq,
        AssertObject.ASSERT_REQUIRED required = Normal (VObj req, assertReq)).
Proof.
  unfold AssertObject.ASSERT_REQUIRED, Spec.array_of_strings.
  destruct required as [| | b | x | str | items | props | name | c m sb | r p];
    cbn [Types.isUndefined Types.isArray Types.isTypedArray_isString negb orb];
    try (split;
         [split; [intros _ [H | (i & H & _)]; discriminate H | reflexivity]
         | intros [H | (i & H & _)]; discriminate H]).
  - split.
    + split; [discriminate |]. intros H. exfalso. apply H. now left.
    + intros _. exists [], None. reflexivity.
  - destruct (forallb Types.isString items) eqn:HS; cbn [negb].
    + apply forallb_isString in HS.
      destruct (reduce_returns items HS []) as [req Hreq]. rewrite Hreq.
      split.
      * split; [discriminate |]. intros H. exfalso. apply H. right. eauto.
      * intros _. exists req, (Some AssertObject.assertReq). reflexivity.
    + split.
      * split; [| reflexivity]. intros _ [H | (i & H & HF)];
          [discriminate H |].
        injection H as <-. apply forallb_isString in HF. congruence.
      * intros [H | (i & H & HF)]; [discriminate H |].
        injection H as <-. apply forallb_isString in HF. congruence.
Qed.

(* ------------------------------------------------------------------ *)
(** ** The object builder: per-key checks and the returned promise *)

Section PerKey.
Import Types.

Variable innerList : list CompiledCheck.
Variables vprops rprops req : list (string * JsVal).

Hypothesis no_own_proto : ~ In "__proto__" (Js.keys vprops).
Hypothesis inner_return : forall fn, In fn innerList ->
  forall key val s, In key (Js.keys vprops) ->
  exists v s',
    fn (VArr [VObj vprops; VStr key; val]) (VObj rprops) s = (Normal v, s').



End PerKey.


